(** * cpd: the registration runner and the nonrigid transform

    A shallow embedding of [include/cpd/runner.hpp] (the [Runner] template,
    its fluent setters and [Runner::run]) and of the nonrigid transform
    ([Nonrigid::init], [modify_probabilities], [compute], [denormalize]).

    Doubles are IEEE binary64 values ([PrimFloat.float]); [size_t] is an [N]
    below [2^64] with its wrap-around written out.  Eigen, spdlog and the
    parts of cpd that the two sources only call (normalize, default_sigma2,
    affinity, the comparers) are interfaces whose operations are parameters
    of the development. *)

From Stdlib Require Import ZArith NArith List Bool Lia Floats.
From Stdlib Require Uint63.
Import ListNotations.

Set Implicit Arguments.
Set Warnings "-inexact-float".

(** ** Scalars *)

Definition double := float.

(** [std::numeric_limits<double>::epsilon()], that is 2^-52. *)
Definition epsilon : double := 0x1p-52%float.

(** [a > b] on doubles: false as soon as one side is NaN. *)
Definition gtb (a b : double) : bool := PrimFloat.ltb b a.

Definition size_t := N.
Definition SIZE_WIDTH : N := 64.
Definition size_t_wf (n : size_t) : Prop := (n < 2 ^ SIZE_WIDTH)%N.

(** [++iter] on a [size_t]. *)
Definition size_t_incr (n : size_t) : size_t := ((n + 1) mod 2 ^ SIZE_WIDTH)%N.

(** Conversion of an Eigen index (non-negative, below 2^63) to [double]. *)
Definition double_of_index (n : N) : double :=
  PrimFloat.of_uint63 (Uint63.of_Z (Z.of_N n)).

(** ** Eigen *)

(** The dense-matrix operations the sources use.  [Matrix] is
    [Eigen::MatrixXd] and [Vector] is [Eigen::VectorXd]. *)
Class Eigen (Matrix Vector : Type) : Type := {
  rows : Matrix -> N;
  cols : Matrix -> N;
  (** [Matrix()], the empty matrix *)
  Empty : Matrix;
  (** [Matrix::Zero(r, c)] and [Matrix::Identity(r, c)] *)
  Zero : N -> N -> Matrix;
  Identity : N -> N -> Matrix;
  transpose : Matrix -> Matrix;
  madd : Matrix -> Matrix -> Matrix;
  msub : Matrix -> Matrix -> Matrix;
  mmul : Matrix -> Matrix -> Matrix;
  (** product of a matrix with a scalar *)
  smul : double -> Matrix -> Matrix;
  trace : Matrix -> double;
  (** [v.asDiagonal() * X] *)
  dmul : Vector -> Matrix -> Matrix;
  (** [A.colPivHouseholderQr().solve(B)] *)
  qr_solve : Matrix -> Matrix -> Matrix;
  (** [X.array().pow(2)], [X.array() * Y.array()], [X.sum()], [v.sum()] *)
  apow2 : Matrix -> Matrix;
  amul : Matrix -> Matrix -> Matrix;
  msum : Matrix -> double;
  vsum : Vector -> double;
  (** [v.replicate(1, c)] *)
  replicate_cols : Vector -> N -> Matrix;
  (** [v.transpose().replicate(r, 1)] *)
  replicate_rows : Vector -> N -> Matrix
}.

Declare Scope matrix_scope.
Delimit Scope matrix_scope with M.
Infix "+" := madd : matrix_scope.
Infix "-" := msub : matrix_scope.
Infix "*" := mmul : matrix_scope.

(** ** Data exchanged between the components *)

(** [IndexVector]: one fixed-cloud index per moving point. *)
Definition IndexVector := list Z.

(** The output of one pass of a comparer.  The struct is declared with the
    comparers; its fields are the ones the two sources read and write. *)
Module Probabilities.
Record t (Matrix Vector : Type) : Type := Build {
  p1 : Vector;
  pt1 : Vector;
  px : Matrix;
  l : double;
  correspondence : IndexVector
}.

(** [probabilities.l += d] *)
Definition add_l {Matrix Vector} (p : t Matrix Vector) (d : double)
  : t Matrix Vector :=
  Build (p1 p) (pt1 p) (px p) (l p + d)%float (correspondence p).
End Probabilities.
Abbreviation Probabilities := Probabilities.t.

(** What [cpd::normalize] returns, with the fields the two sources read. *)
Module Normalization.
Record t (Matrix Vector : Type) : Type := Build {
  fixed_mean : Vector;
  fixed : Matrix;
  moving : Matrix;
  scale : double
}.
End Normalization.
Abbreviation Normalization := Normalization.t.

(** [Transform::Result].  Every transform's result has the five fields the
    runner touches; [params] stands for the fields a variant adds (none for
    the nonrigid one). *)
Module Result.
Record t (Matrix P : Type) : Type := Build {
  points : Matrix;
  sigma2 : double;
  correspondence : IndexVector;
  runtime : Z;
  iterations : size_t;
  params : P
}.

Section Setters.
Context {Matrix P : Type}.
Implicit Type r : t Matrix P.

(** Assignments to one field. *)
Definition set_points r (m : Matrix) :=
  Build m (sigma2 r) (correspondence r) (runtime r) (iterations r) (params r).
Definition set_sigma2 r (s : double) :=
  Build (points r) s (correspondence r) (runtime r) (iterations r) (params r).
Definition set_correspondence r (c : IndexVector) :=
  Build (points r) (sigma2 r) c (runtime r) (iterations r) (params r).
Definition set_runtime r (d : Z) :=
  Build (points r) (sigma2 r) (correspondence r) d (iterations r) (params r).
Definition set_iterations r (n : size_t) :=
  Build (points r) (sigma2 r) (correspondence r) (runtime r) n (params r).
End Setters.

(** A default-constructed result: the matrix and the index vector are empty.
    The scalars, which C++ leaves indeterminate, are zeroed here; the runner
    and the transform write each of them before anything reads it. *)
Definition default {Matrix Vector} `{Eigen Matrix Vector} {P} (p : P)
  : t Matrix P :=
  Build Empty 0%float [] 0%Z 0%N p.
End Result.
Abbreviation Result := Result.t.

(** ** The probability engine *)

(** [Comparer::compute(fixed, moving, sigma2, outliers)]. *)
Definition Comparer (Matrix Vector : Type) : Type :=
  Matrix -> Matrix -> double -> double -> Probabilities Matrix Vector.

(** The functions of cpd that the runner and the nonrigid transform call and
    whose definitions live in other files of the library. *)
Module cpd.
Class Library (Matrix Vector : Type) : Type := {
  (** [cpd::normalize(fixed, moving)] *)
  normalize : Matrix -> Matrix -> Normalization Matrix Vector;
  (** [cpd::default_sigma2(fixed, moving)] *)
  default_sigma2 : Matrix -> Matrix -> double;
  (** [cpd::affinity(x, y, beta)] *)
  affinity : Matrix -> Matrix -> double -> Matrix;
  (** [Comparer::create()] *)
  Comparer_create : Comparer Matrix Vector;
  (** [DirectComparer().compute] *)
  DirectComparer_compute : Comparer Matrix Vector
}.
End cpd.

(** ** The transform strategy *)

(** What [Runner<Transform>] asks of its template argument.  [T] is the
    transform's own state, [P] the extra fields of its result. *)
Class Transform (Matrix Vector T P : Type) : Type := {
  (** [Transform()] *)
  Transform_default : T;
  (** the variant's part of a default-constructed [Transform::Result] *)
  params_default : P;
  init : T -> Matrix -> Matrix -> T;
  modify_probabilities :
    T -> Probabilities Matrix Vector -> Probabilities Matrix Vector;
  compute :
    T -> Matrix -> Matrix -> Probabilities Matrix Vector -> double ->
    Result Matrix P * T;
  denormalize :
    T -> Normalization Matrix Vector -> Result Matrix P -> Result Matrix P
}.

(** A transform that never fills in the correspondence of its results:
    [compute] returns it empty and [denormalize] leaves it alone. *)
Definition correspondence_free {Matrix Vector T P : Type}
  (Tr : Transform Matrix Vector T P) : Prop :=
  (forall t fixed moving probabilities sigma2,
     Result.correspondence (fst (compute t fixed moving probabilities sigma2)) = []) /\
  (forall t normalization result,
     Result.correspondence (denormalize t normalization result) =
     Result.correspondence result).

(** ** The nonrigid transform *)

Module Nonrigid.
Record t (Matrix : Type) : Type := Build {
  m_g : Matrix;
  m_w : Matrix;
  m_beta : double;
  m_lambda : double
}.

Section Nonrigid.
Context {Matrix Vector : Type} {E : Eigen Matrix Vector} {L : cpd.Library Matrix Vector}.
Local Open Scope float_scope.

(** [Nonrigid::init]: the kernel of the moving cloud against itself, and
    all-zero displacement weights. *)
Definition init (t0 : t Matrix) (_ moving : Matrix) : t Matrix :=
  Build (cpd.affinity moving moving (m_beta t0))
        (Zero (rows moving) (cols moving))
        (m_beta t0) (m_lambda t0).

(** The smoothness term [m_lambda / 2.0 * (m_w^T * m_g * m_w).trace()]. *)
Definition penalty (t0 : t Matrix) : double :=
  m_lambda t0 / 2 * trace (transpose (m_w t0) * m_g t0 * m_w t0)%M.

(** [Nonrigid::modify_probabilities]. *)
Definition modify_probabilities (t0 : t Matrix)
  (probabilities : Probabilities Matrix Vector) : Probabilities Matrix Vector :=
  Probabilities.add_l probabilities (penalty t0).

(** Left- and right-hand side of the system solved in [Nonrigid::compute]. *)
Definition system_lhs (t0 : t Matrix) (moving : Matrix)
  (probabilities : Probabilities Matrix Vector) (sigma2 : double) : Matrix :=
  (dmul (Probabilities.p1 probabilities) (m_g t0) +
   smul (m_lambda t0 * sigma2)%float (Identity (rows moving) (rows moving)))%M.

Definition system_rhs (moving : Matrix)
  (probabilities : Probabilities Matrix Vector) : Matrix :=
  (Probabilities.px probabilities -
   dmul (Probabilities.p1 probabilities) moving)%M.

(** The variance recomputed at the end of [Nonrigid::compute]. *)
Definition residual_sigma2 (fixed points : Matrix)
  (probabilities : Probabilities Matrix Vector) : double :=
  let cols := cols fixed in
  let np := vsum (Probabilities.p1 probabilities) in
  abs ((msum (amul (apow2 fixed)
                   (replicate_cols (Probabilities.pt1 probabilities) cols)) +
        msum (amul (apow2 points)
                   (replicate_cols (Probabilities.p1 probabilities) cols)) -
        2 * trace (transpose (Probabilities.px probabilities) * points)%M) /
       (np * double_of_index cols)).

(** [Nonrigid::compute]: returns the result and the transform with its
    displacement weights replaced. *)
Definition compute (t0 : t Matrix) (fixed moving : Matrix)
  (probabilities : Probabilities Matrix Vector) (sigma2 : double)
  : Result Matrix unit * t Matrix :=
  let w := qr_solve (system_lhs t0 moving probabilities sigma2)
                    (system_rhs moving probabilities) in
  let result := Result.default tt in
  let result := Result.set_points result (moving + m_g t0 * w)%M in
  let result :=
    Result.set_sigma2 result
      (residual_sigma2 fixed (Result.points result) probabilities) in
  (result, Build (m_g t0) w (m_beta t0) (m_lambda t0)).

(** [Nonrigid::denormalize]. *)
Definition denormalize (_ : t Matrix)
  (normalization : Normalization Matrix Vector) (result : Result Matrix unit)
  : Result Matrix unit :=
  Result.set_points result
    (smul (Normalization.scale normalization) (Result.points result) +
     replicate_rows (Normalization.fixed_mean normalization)
                    (rows (Result.points result)))%M.

End Nonrigid.
End Nonrigid.

(** The nonrigid transform as a [Runner] template argument.  The defaults of
    [m_beta] and [m_lambda] are declared with the class and are taken as
    given. *)
Definition Nonrigid_Transform {Matrix Vector : Type}
  {E : Eigen Matrix Vector} {L : cpd.Library Matrix Vector}
  (DEFAULT_BETA DEFAULT_LAMBDA : double)
  : Transform Matrix Vector (Nonrigid.t Matrix) unit :=
  {| Transform_default := Nonrigid.Build Empty Empty DEFAULT_BETA DEFAULT_LAMBDA;
     params_default := tt;
     init := Nonrigid.init;
     modify_probabilities := Nonrigid.modify_probabilities;
     compute := Nonrigid.compute;
     denormalize := Nonrigid.denormalize |}.

(** ** The runner *)

(** The default number of iterations allowed. *)
Definition DEFAULT_MAX_ITERATIONS : size_t := 150%N.
(** Whether points should be normalized by default. *)
Definition DEFAULT_NORMALIZE : bool := true.
(** The default outlier weight. *)
Definition DEFAULT_OUTLIERS : double := 0.1%float.
(** The default tolerance. *)
Definition DEFAULT_TOLERANCE : double := 1e-5%float.
(** The default sigma2. *)
Definition DEFAULT_SIGMA2 : double := 0.0%float.
(** Whether correspondence vector should be computed by default. *)
Definition DEFAULT_CORRESPONDENCE : bool := false.

Module Runner.
(** [m_logger] records whether [spdlog::get(LOGGER_NAME)] found a logger:
    the runner only ever tests the pointer and sends messages through it. *)
Record t (Matrix Vector T : Type) : Type := Build {
  m_comparer : Comparer Matrix Vector;
  m_correspondence : bool;
  m_logger : bool;
  m_max_iterations : size_t;
  m_normalize : bool;
  m_outliers : double;
  m_sigma2 : double;
  m_tolerance : double;
  m_transform : T
}.

Section Configure.
Context {Matrix Vector T P : Type}.
Context {L : cpd.Library Matrix Vector} {Tr : Transform Matrix Vector T P}.
Implicit Type r : t Matrix Vector T.

(** [Runner(Transform transform)]; [logger] is the outcome of the lookup of
    the logger in spdlog's registry. *)
Definition create (logger : bool) (transform : T) : t Matrix Vector T :=
  Build cpd.Comparer_create DEFAULT_CORRESPONDENCE logger DEFAULT_MAX_ITERATIONS
        DEFAULT_NORMALIZE DEFAULT_OUTLIERS DEFAULT_SIGMA2 DEFAULT_TOLERANCE
        transform.

(** [Runner()]. *)
Definition create_default (logger : bool) : t Matrix Vector T :=
  create logger Transform_default.

(** The getters. *)
Definition correspondence r : bool := m_correspondence r.
Definition max_iterations r : size_t := m_max_iterations r.
Definition normalize r : bool := m_normalize r.
Definition sigma2 r : double := m_sigma2 r.
Definition tolerance r : double := m_tolerance r.
Definition outliers r : double := m_outliers r.

(** The setters; each one stores its argument and returns the runner. *)
Definition set_comparer r (comparer : Comparer Matrix Vector) :=
  Build comparer (m_correspondence r) (m_logger r) (m_max_iterations r)
        (m_normalize r) (m_outliers r) (m_sigma2 r) (m_tolerance r)
        (m_transform r).
Definition set_correspondence r (correspondence : bool) :=
  Build (m_comparer r) correspondence (m_logger r) (m_max_iterations r)
        (m_normalize r) (m_outliers r) (m_sigma2 r) (m_tolerance r)
        (m_transform r).
Definition set_max_iterations r (max_iterations : size_t) :=
  Build (m_comparer r) (m_correspondence r) (m_logger r) max_iterations
        (m_normalize r) (m_outliers r) (m_sigma2 r) (m_tolerance r)
        (m_transform r).
Definition set_sigma2 r (sigma2 : double) :=
  Build (m_comparer r) (m_correspondence r) (m_logger r) (m_max_iterations r)
        (m_normalize r) (m_outliers r) sigma2 (m_tolerance r) (m_transform r).
Definition set_tolerance r (tolerance : double) :=
  Build (m_comparer r) (m_correspondence r) (m_logger r) (m_max_iterations r)
        (m_normalize r) (m_outliers r) (m_sigma2 r) tolerance (m_transform r).
Definition set_outliers r (outliers : double) :=
  Build (m_comparer r) (m_correspondence r) (m_logger r) (m_max_iterations r)
        (m_normalize r) outliers (m_sigma2 r) (m_tolerance r) (m_transform r).

(** [m_transform] as left by a run. *)
Definition set_transform r (transform : T) :=
  Build (m_comparer r) (m_correspondence r) (m_logger r) (m_max_iterations r)
        (m_normalize r) (m_outliers r) (m_sigma2 r) (m_tolerance r) transform.

End Configure.

(** *** What a run does to its collaborators *)

(** The messages sent to the logger. *)
Inductive message : Type :=
| Fixed_rows (n : N)
| Moving_rows (n : N)
| Sigma2_initialized (sigma2 : double)
| Sigma2_previously_set (sigma2 : double)
| Iteration (iter : size_t) (dL sigma2 : double).

(** The calls a run makes, in order, with their arguments. *)
Inductive event (Matrix Vector P : Type) : Type :=
| Info (m : message)
| Normalize (fixed moving : Matrix)
| Init (fixed moving : Matrix)
| Default_sigma2 (fixed moving : Matrix)
| Compare (fixed moving : Matrix) (sigma2 outliers : double)
| Modify_probabilities (probabilities : Probabilities Matrix Vector)
| Compute (fixed moving : Matrix)
    (probabilities : Probabilities Matrix Vector) (sigma2 : double)
| Denormalize (normalization : Normalization Matrix Vector)
    (result : Result Matrix P)
| Direct_compare (fixed moving : Matrix) (sigma2 outliers : double).
Arguments Info {Matrix Vector P} m.
Arguments Normalize {Matrix Vector P} fixed moving.
Arguments Init {Matrix Vector P} fixed moving.
Arguments Default_sigma2 {Matrix Vector P} fixed moving.
Arguments Compare {Matrix Vector P} fixed moving sigma2 outliers.
Arguments Modify_probabilities {Matrix Vector P} probabilities.
Arguments Compute {Matrix Vector P} fixed moving probabilities sigma2.
Arguments Denormalize {Matrix Vector P} normalization result.
Arguments Direct_compare {Matrix Vector P} fixed moving sigma2 outliers.

(** The variables of the [while] loop of [run]. *)
Record loop_state (Matrix Vector T P : Type) : Type := Loop_state {
  iter : size_t;
  ntol : double;
  l : double;
  result : Result Matrix P;
  transform : T;
  trace : list (event Matrix Vector P)
}.

(** What [run] leaves behind: the returned result, the runner (whose
    transform the run has modified) and the calls made. *)
Record outcome (Matrix Vector T P : Type) : Type := Outcome {
  returned : Result Matrix P;
  runner : t Matrix Vector T;
  events : list (event Matrix Vector P)
}.

Section Run.
Context {Matrix Vector T P : Type}.
Context {E : Eigen Matrix Vector} {L : cpd.Library Matrix Vector}.
Context {Tr : Transform Matrix Vector T P}.
Implicit Type r : t Matrix Vector T.
Implicit Type s : loop_state Matrix Vector T P.
Local Open Scope float_scope.

(** [m_logger->info(...)] behind [if (m_logger)]. *)
Definition info r (m : message) : list (event Matrix Vector P) :=
  if m_logger r then [Info m] else [].

(** [|(pl - l) / pl|], the relative change of the likelihood. *)
Definition relative_change (pl l : double) : double := abs ((pl - l) / pl).

(** The loop test. *)
Definition loop_cond r s : bool :=
  (iter s <? m_max_iterations r)%N &&
  gtb (ntol s) (m_tolerance r) &&
  gtb (Result.sigma2 (result s)) (10 * epsilon).

(** The probabilities of one iteration: the comparer's, then modified by the
    transform. *)
Definition compared r (fixed : Matrix) s : Probabilities Matrix Vector :=
  m_comparer r fixed (Result.points (result s)) (Result.sigma2 (result s))
             (m_outliers r).

Definition estep r (fixed : Matrix) s : Probabilities Matrix Vector :=
  modify_probabilities (transform s) (compared r fixed s).

(** The loop body. *)
Definition loop_body r (fixed moving : Matrix) s : loop_state Matrix Vector T P :=
  let probabilities := estep r fixed s in
  let ntol := relative_change (Probabilities.l probabilities) (l s) in
  let sigma2 := Result.sigma2 (result s) in
  let '(result', transform') :=
    compute (transform s) fixed moving probabilities sigma2 in
  Loop_state (size_t_incr (iter s)) ntol (Probabilities.l probabilities)
    result' transform'
    (trace s ++
     [Compare fixed (Result.points (result s)) sigma2 (m_outliers r);
      Modify_probabilities (compared r fixed s)] ++
     info r (Iteration (iter s) ntol sigma2) ++
     [Compute fixed moving probabilities sigma2]).

(** The loop.  [fuel] bounds the number of turns; [run] supplies
    [m_max_iterations] of it, which the loop never uses up before its test
    fails. *)
Fixpoint while_loop r (fixed moving : Matrix) (fuel : nat) s
  : loop_state Matrix Vector T P :=
  match fuel with
  | O => s
  | S fuel' =>
      if loop_cond r s
      then while_loop r fixed moving fuel' (loop_body r fixed moving s)
      else s
  end.

(** The normalization of the clouds, when the runner normalizes, and what
    [fixed_ptr] and [moving_ptr] then point to. *)
Definition normalization r (fixed moving : Matrix)
  : option (Normalization Matrix Vector) :=
  if m_normalize r then Some (cpd.normalize fixed moving) else None.

Definition fixed_ptr r (fixed moving : Matrix) : Matrix :=
  match normalization r fixed moving with
  | Some n => Normalization.fixed n
  | None => fixed
  end.

Definition moving_ptr r (fixed moving : Matrix) : Matrix :=
  match normalization r fixed moving with
  | Some n => Normalization.moving n
  | None => moving
  end.

(** The variance the loop starts from. *)
Definition initial_sigma2 r (fixed moving : Matrix) : double :=
  if m_sigma2 r =? 0
  then cpd.default_sigma2 (fixed_ptr r fixed moving) (moving_ptr r fixed moving)
  else m_sigma2 r.

(** The state on entry to the loop. *)
Definition loop_entry r (fixed moving : Matrix)
  : loop_state Matrix Vector T P :=
  let fixed_ptr := fixed_ptr r fixed moving in
  let moving_ptr := moving_ptr r fixed moving in
  let transform := init (m_transform r) fixed_ptr moving_ptr in
  let result := Result.default params_default in
  let result := Result.set_points result moving_ptr in
  let result := Result.set_sigma2 result (initial_sigma2 r fixed moving) in
  Loop_state 0%N (m_tolerance r + 10) 0 result transform
    (info r (Fixed_rows (rows fixed)) ++
     info r (Moving_rows (rows moving)) ++
     (if m_normalize r then [Normalize fixed moving] else []) ++
     [Init fixed_ptr moving_ptr] ++
     (if m_sigma2 r =? 0
      then Default_sigma2 fixed_ptr moving_ptr ::
           info r (Sigma2_initialized (Result.sigma2 result))
      else info r (Sigma2_previously_set (Result.sigma2 result)))).

(** The state on exit from the loop. *)
Definition loop_exit r (fixed moving : Matrix) : loop_state Matrix Vector T P :=
  while_loop r (fixed_ptr r fixed moving) (moving_ptr r fixed moving)
    (N.to_nat (m_max_iterations r)) (loop_entry r fixed moving).

(** The result after [if (m_normalize) m_transform.denormalize(...)]. *)
Definition denormalized r (fixed moving : Matrix) : Result Matrix P :=
  let s := loop_exit r fixed moving in
  match normalization r fixed moving with
  | Some n => denormalize (transform s) n (result s)
  | None => result s
  end.

(** [Runner::run].  [elapsed] is the value the clock gives for
    [duration_cast<microseconds>(toc - tic)]. *)
Definition run r (elapsed : Z) (fixed moving : Matrix)
  : outcome Matrix Vector T P :=
  let s := loop_exit r fixed moving in
  let result := denormalized r fixed moving in
  let tr :=
    trace s ++
    match normalization r fixed moving with
    | Some n => [Denormalize n (Runner.result s)]
    | None => []
    end in
  let '(result, tr) :=
    if m_correspondence r then
      let probabilities :=
        cpd.DirectComparer_compute fixed (Result.points result) (m_sigma2 r)
                                   (m_outliers r) in
      (Result.set_correspondence result
         (Probabilities.correspondence probabilities),
       tr ++ [Direct_compare fixed (Result.points result) (m_sigma2 r)
                (m_outliers r)])
    else (result, tr) in
  let result := Result.set_runtime result elapsed in
  let result := Result.set_iterations result (iter s) in
  Outcome result (set_transform r (transform s)) tr.

(** The state after [k] turns of the loop body. *)
Definition state_after r (fixed moving : Matrix) (k : nat)
  : loop_state Matrix Vector T P :=
  Nat.iter k (loop_body r (fixed_ptr r fixed moving) (moving_ptr r fixed moving))
           (loop_entry r fixed moving).

(** *** Reading a trace *)

Definition is_compare (e : event Matrix Vector P) : bool :=
  match e with Compare _ _ _ _ => true | _ => false end.
Definition is_modify (e : event Matrix Vector P) : bool :=
  match e with Modify_probabilities _ => true | _ => false end.
Definition is_compute (e : event Matrix Vector P) : bool :=
  match e with Compute _ _ _ _ => true | _ => false end.
Definition is_direct_compare (e : event Matrix Vector P) : bool :=
  match e with Direct_compare _ _ _ _ => true | _ => false end.
Definition is_default_sigma2 (e : event Matrix Vector P) : bool :=
  match e with Default_sigma2 _ _ => true | _ => false end.

(** How many events of a trace satisfy [f]. *)
Definition count (f : event Matrix Vector P -> bool)
  (tr : list (event Matrix Vector P)) : nat :=
  length (filter f tr).

End Run.
End Runner.
Abbreviation Runner := Runner.t.

(** ** A dense instance on lists

    Matrices as lists of rows, with sums taken left to right, so that the
    model can be run on small clouds.  The kernel and the two engines need
    [exp] and [log], which the binary64 primitives do not include; the
    instance puts the rational kernel [1 / (1 + d2 / (2 s))] in their place
    and is used for examples only. *)

Module Dense.
Local Open Scope float_scope.

Definition Matrix := list (list double).
Definition Vector := list double.

Fixpoint zip_with {A B C} (f : A -> B -> C) (xs : list A) (ys : list B)
  : list C :=
  match xs, ys with
  | x :: xs', y :: ys' => f x y :: zip_with f xs' ys'
  | _, _ => []
  end.

Definition sum (v : list double) : double := fold_left PrimFloat.add v 0.
Definition dot (u v : list double) : double := sum (zip_with PrimFloat.mul u v).

Definition nrows (m : Matrix) : nat := length m.
Definition ncols (m : Matrix) : nat :=
  match m with
  | [] => O
  | r :: _ => length r
  end.

Definition column (m : Matrix) (j : nat) : list double :=
  map (fun r => nth j r 0) m.
Definition transpose (m : Matrix) : Matrix :=
  map (column m) (seq 0 (ncols m)).
Definition identity (r c : nat) : Matrix :=
  map (fun i => map (fun j => if Nat.eqb i j then 1 else 0) (seq 0 c))
      (seq 0 r).
Definition mul (a b : Matrix) : Matrix :=
  let bt := transpose b in map (fun r => map (dot r) bt) a.
Definition trace (m : Matrix) : double :=
  sum (map (fun i => nth i (nth i m []) 0) (seq 0 (Nat.min (nrows m) (ncols m)))).

(** Gauss-Jordan elimination with partial pivoting on the rows of [A | B]. *)
Definition aug : Type := list double * list double.

Fixpoint pivot (k : nat) (cur : aug) (rest : list aug) : aug * list aug :=
  match rest with
  | [] => (cur, [])
  | r :: rest' =>
      if abs (nth k (fst cur) 0) <? abs (nth k (fst r) 0)
      then let '(p, others) := pivot k r rest' in (p, cur :: others)
      else let '(p, others) := pivot k cur rest' in (p, r :: others)
  end.

Definition eliminate (k : nat) (p r : aug) : aug :=
  let c := nth k (fst r) 0 in
  (zip_with (fun x y => x - c * y) (fst r) (fst p),
   zip_with (fun x y => x - c * y) (snd r) (snd p)).

Fixpoint gauss_jordan (n k : nat) (done todo : list aug) : list aug :=
  match n, todo with
  | S n', r :: rest =>
      let '(p, others) := pivot k r rest in
      let d := nth k (fst p) 0 in
      let p' := (map (fun x => x / d) (fst p), map (fun x => x / d) (snd p)) in
      gauss_jordan n' (S k) (map (eliminate k p') done ++ [p'])
                   (map (eliminate k p') others)
  | _, _ => done
  end.

Definition solve (a b : Matrix) : Matrix :=
  map snd (gauss_jordan (nrows a) 0 [] (combine a b)).

#[global] Instance eigen : Eigen Matrix Vector := {
  rows m := N.of_nat (nrows m);
  cols m := N.of_nat (ncols m);
  Empty := [];
  Zero r c := repeat (repeat 0 (N.to_nat c)) (N.to_nat r);
  Identity r c := identity (N.to_nat r) (N.to_nat c);
  transpose := transpose;
  madd := zip_with (zip_with PrimFloat.add);
  msub := zip_with (zip_with PrimFloat.sub);
  mmul := mul;
  smul s := map (map (PrimFloat.mul s));
  trace := trace;
  dmul := zip_with (fun p => map (PrimFloat.mul p));
  qr_solve := solve;
  apow2 := map (map (fun x => x * x));
  amul := zip_with (zip_with PrimFloat.mul);
  msum m := sum (map sum m);
  vsum := sum;
  replicate_cols v c := map (fun x => repeat x (N.to_nat c)) v;
  replicate_rows v r := repeat v (N.to_nat r)
}.

(** Squared distance and the stand-in kernel. *)
Definition dist2 (x y : list double) : double :=
  sum (map (fun d => d * d) (zip_with PrimFloat.sub x y)).
Definition kernel (s : double) (x y : list double) : double :=
  1 / (1 + dist2 x y / (2 * s)).

Definition mean (m : Matrix) : Vector :=
  map (fun c => sum c / double_of_index (N.of_nat (nrows m))) (transpose m).
Definition center (mu : Vector) (m : Matrix) : Matrix :=
  map (fun r => zip_with PrimFloat.sub r mu) m.

(** Modelled from the spec: [cpd::normalize], defined in cpd/normalize, which
    is not among the sources.  Both clouds are centred on the fixed cloud's
    mean and divided by the root of the mean squared norm of the pooled
    centred points.  The floor the description asks of the scale, whose value
    and policy it leaves open, is not modelled: the clouds of the examples
    have a positive scale. *)
Definition normalize (fixed moving : Matrix) : Normalization Matrix Vector :=
  let mu := mean fixed in
  let f := center mu fixed in
  let m := center mu moving in
  let total := sum (map (fun r => dot r r) (f ++ m)) in
  let scale := sqrt (total / double_of_index (N.of_nat (nrows f + nrows m))) in
  Normalization.Build mu (map (map (fun x => x / scale)) f)
                      (map (map (fun x => x / scale)) m) scale.

(** Modelled from the spec: [cpd::default_sigma2], defined in cpd/utils,
    which is not among the sources.  The sum of the squared distances of all
    pairs of a fixed and a moving point, over [D * N * M]. *)
Definition default_sigma2 (fixed moving : Matrix) : double :=
  sum (map (fun x => sum (map (dist2 x) moving)) fixed) /
  double_of_index (N.of_nat (ncols fixed * nrows fixed * nrows moving)).

Definition affinity (x y : Matrix) (beta : double) : Matrix :=
  map (fun xi => map (kernel (beta * beta) xi) y) x.

Fixpoint argmax (best : Z) (bv : double) (i : Z) (v : list double) : Z :=
  match v with
  | [] => best
  | x :: v' =>
      if bv <? x then argmax i x (i + 1)%Z v' else argmax best bv (i + 1)%Z v'
  end.

(** An engine with the shape of the direct one: kernel weights normalised
    per fixed point with a uniform outlier term. *)
Definition compare (fixed moving : Matrix) (sigma2 outliers : double)
  : Probabilities Matrix Vector :=
  let k := map (fun x => map (kernel sigma2 x) moving) fixed in
  let c := outliers / (1 - outliers) *
           double_of_index (N.of_nat (nrows moving)) /
           double_of_index (N.of_nat (nrows fixed)) in
  let den := map (fun r => sum r + c) k in
  let p := zip_with (fun r d => map (fun x => x / d) r) k den in
  let pt := transpose p in
  Probabilities.Build (map sum pt) (map sum p) (mul pt fixed)
    (sum den)
    (map (fun w => argmax 0%Z neg_infinity 0%Z w) pt).

#[global] Instance library : cpd.Library Matrix Vector := {
  normalize := normalize;
  default_sigma2 := default_sigma2;
  affinity := affinity;
  Comparer_create := compare;
  DirectComparer_compute := compare
}.

#[global] Instance nonrigid : Transform Matrix Vector (Nonrigid.t Matrix) unit :=
  Nonrigid_Transform 3 3.

(** A unit square and a shifted copy of it. *)
Definition square : Matrix := [[0; 0]; [1; 0]; [0; 1]; [1; 1]].
Definition shifted : Matrix := [[0.5; 0]; [1.5; 0]; [0.5; 1]; [1.5; 1]].

(** A comparer whose likelihood is identically zero. *)
Definition flat_compare (fixed moving : Matrix) (sigma2 outliers : double)
  : Probabilities Matrix Vector :=
  let p := compare fixed moving sigma2 outliers in
  Probabilities.Build (Probabilities.p1 p) (Probabilities.pt1 p)
    (Probabilities.px p) 0 (Probabilities.correspondence p).

(** A default nonrigid runner with that comparer. *)
Definition flat_runner : Runner Matrix Vector (Nonrigid.t Matrix) :=
  Runner.set_comparer (Runner.create_default true) flat_compare.

(** A nonrigid runner with a negative tolerance and an outlier weight above
    one, capped at three iterations. *)
Definition out_of_range_runner : Runner Matrix Vector (Nonrigid.t Matrix) :=
  Runner.set_max_iterations
    (Runner.set_outliers
       (Runner.set_tolerance (Runner.create_default true) (-1)) 1.5) 3%N.


(** A default nonrigid runner that also computes the correspondence. *)
Definition corresponding_runner : Runner Matrix Vector (Nonrigid.t Matrix) :=
  Runner.set_correspondence (Runner.create_default true) true.

(** A default nonrigid runner without a logger. *)
Definition silent_runner : Runner Matrix Vector (Nonrigid.t Matrix) :=
  Runner.create_default false.

(** Default nonrigid runners with a tolerance so large that adding ten does
    not change it, and with a negative initial variance. *)
Definition huge_tolerance_runner : Runner Matrix Vector (Nonrigid.t Matrix) :=
  Runner.set_tolerance (Runner.create_default true) 1e300.
Definition negative_sigma2_runner : Runner Matrix Vector (Nonrigid.t Matrix) :=
  Runner.set_sigma2 (Runner.create_default true) (-1).

(** A default nonrigid runner whose tolerance is NaN. *)
Definition nan_tolerance_runner : Runner Matrix Vector (Nonrigid.t Matrix) :=
  Runner.set_tolerance (Runner.create_default true) nan.

(** A default nonrigid runner, with a logger registered. *)
Definition runner : Runner Matrix Vector (Nonrigid.t Matrix) :=
  Runner.create_default true.

End Dense.

(** ** The free functions *)

(** [cpd::run<Transform>(fixed, source)]: a default runner, run once.  As in
    [Runner.create], [logger] is the outcome of the lookup of the logger and
    [elapsed] the duration the clock measures. *)
Definition cpd_run {Matrix Vector T P : Type}
  {E : Eigen Matrix Vector} {L : cpd.Library Matrix Vector}
  {Tr : Transform Matrix Vector T P}
  (logger : bool) (elapsed : Z) (fixed source : Matrix) : Result Matrix P :=
  let runner : Runner Matrix Vector T := Runner.create_default logger in
  Runner.returned (Runner.run runner elapsed fixed source).

(** [cpd::nonrigid(fixed, moving)]. *)
Definition cpd_nonrigid {Matrix Vector : Type}
  {E : Eigen Matrix Vector} {L : cpd.Library Matrix Vector}
  (DEFAULT_BETA DEFAULT_LAMBDA : double)
  (logger : bool) (elapsed : Z) (fixed moving : Matrix) : Result Matrix unit :=
  cpd_run (Tr := Nonrigid_Transform DEFAULT_BETA DEFAULT_LAMBDA)
          logger elapsed fixed moving.

(** ** The example program *)

(** The registration at the heart of [examples/rigid.cpp]:
    [cpd::Rigid rigid; cpd::Runner<cpd::Rigid> runner(rigid);
     runner.sigma2(sigma2).comparer(std::move(comparer));
     runner.run(fixed, moving)].
    The program registers its logger before it builds the runner, so the
    runner finds one.  [sigma2] and [comparer] come from the command line and
    the clouds from the two files; the transform is the template argument. *)
Definition example_registration {Matrix Vector T P : Type}
  {E : Eigen Matrix Vector} {L : cpd.Library Matrix Vector}
  {Tr : Transform Matrix Vector T P}
  (sigma2 : double) (comparer : Comparer Matrix Vector)
  (elapsed : Z) (fixed moving : Matrix) : Runner.outcome Matrix Vector T P :=
  let rigid : T := Transform_default in
  let runner := Runner.create true rigid in
  let runner := Runner.set_comparer (Runner.set_sigma2 runner sigma2) comparer in
  Runner.run runner elapsed fixed moving.

(** ** Comparing runs *)

Module Trace.
Section Trace.
Context {Matrix Vector T P : Type}.

Definition is_info (e : Runner.event Matrix Vector P) : bool :=
  match e with Runner.Info _ => true | _ => false end.
Definition is_init (e : Runner.event Matrix Vector P) : bool :=
  match e with Runner.Init _ _ => true | _ => false end.
Definition is_normalize (e : Runner.event Matrix Vector P) : bool :=
  match e with Runner.Normalize _ _ => true | _ => false end.
Definition is_denormalize (e : Runner.event Matrix Vector P) : bool :=
  match e with Runner.Denormalize _ _ => true | _ => false end.

(** The calls of a trace other than those to the logger. *)
Definition silent (tr : list (Runner.event Matrix Vector P))
  : list (Runner.event Matrix Vector P) :=
  filter (fun e => negb (is_info e)) tr.

(** A loop state with its trace cut down to the events [keep] keeps. *)
Definition restrict (keep : Runner.event Matrix Vector P -> bool)
  (s : Runner.loop_state Matrix Vector T P) : Runner.loop_state Matrix Vector T P :=
  Runner.Loop_state (Runner.iter s) (Runner.ntol s) (Runner.l s)
    (Runner.result s) (Runner.transform s) (filter keep (Runner.trace s)).

(** Two runners with the same comparer, cap, normalization flag, outlier
    weight, initial variance and tolerance. *)
Definition same_settings (r r' : Runner Matrix Vector T) : Prop :=
  Runner.m_comparer r = Runner.m_comparer r' /\
  Runner.m_max_iterations r = Runner.m_max_iterations r' /\
  Runner.m_normalize r = Runner.m_normalize r' /\
  Runner.m_outliers r = Runner.m_outliers r' /\
  Runner.m_sigma2 r = Runner.m_sigma2 r' /\
  Runner.m_tolerance r = Runner.m_tolerance r'.

(** [keep] lets the same messages of both runners through. *)
Definition same_messages (keep : Runner.event Matrix Vector P -> bool)
  (r r' : Runner Matrix Vector T) : Prop :=
  forall m, filter keep (Runner.info r m) = filter keep (Runner.info r' m).

Context {E : Eigen Matrix Vector} {L : cpd.Library Matrix Vector}.
Context {Tr : Transform Matrix Vector T P}.

(** The calls of one turn of the loop from the state [s]. *)
Definition turn (r : Runner Matrix Vector T) (fixed moving : Matrix)
  (s : Runner.loop_state Matrix Vector T P)
  : list (Runner.event Matrix Vector P) :=
  let sigma2 := Result.sigma2 (Runner.result s) in
  let probabilities := Runner.estep r fixed s in
  [Runner.Compare fixed (Result.points (Runner.result s)) sigma2
     (Runner.m_outliers r);
   Runner.Modify_probabilities (Runner.compared r fixed s)] ++
  Runner.info r
    (Runner.Iteration (Runner.iter s)
       (Runner.relative_change (Probabilities.l probabilities) (Runner.l s))
       sigma2) ++
  [Runner.Compute fixed moving probabilities sigma2].

End Trace.
End Trace.

(** * Properties *)

Section Loop.
Context {Matrix Vector T P : Type}.
Context {E : Eigen Matrix Vector} {L : cpd.Library Matrix Vector}.
Context {Tr : Transform Matrix Vector T P}.
Implicit Type r : Runner Matrix Vector T.
Implicit Type s : Runner.loop_state Matrix Vector T P.
Implicit Types fixed moving : Matrix.

(** The fields of the state after one turn of the body. *)
Lemma iter_loop_body r fixed moving s :
  Runner.iter (Runner.loop_body r fixed moving s) = size_t_incr (Runner.iter s).
Proof. unfold Runner.loop_body. destruct compute. reflexivity. Qed.

Lemma ntol_loop_body r fixed moving s :
  Runner.ntol (Runner.loop_body r fixed moving s) =
  Runner.relative_change (Probabilities.l (Runner.estep r fixed s)) (Runner.l s).
Proof. unfold Runner.loop_body. destruct compute. reflexivity. Qed.

Lemma l_loop_body r fixed moving s :
  Runner.l (Runner.loop_body r fixed moving s) =
  Probabilities.l (Runner.estep r fixed s).
Proof. unfold Runner.loop_body. destruct compute. reflexivity. Qed.

Lemma result_loop_body r fixed moving s :
  Runner.result (Runner.loop_body r fixed moving s) =
  fst (compute (Runner.transform s) fixed moving (Runner.estep r fixed s)
               (Result.sigma2 (Runner.result s))).
Proof. unfold Runner.loop_body. destruct compute. reflexivity. Qed.

Lemma transform_loop_body r fixed moving s :
  Runner.transform (Runner.loop_body r fixed moving s) =
  snd (compute (Runner.transform s) fixed moving (Runner.estep r fixed s)
               (Result.sigma2 (Runner.result s))).
Proof. unfold Runner.loop_body. destruct compute. reflexivity. Qed.

Lemma trace_loop_body r fixed moving s :
  Runner.trace (Runner.loop_body r fixed moving s) =
  Runner.trace s ++
  [Runner.Compare fixed (Result.points (Runner.result s))
     (Result.sigma2 (Runner.result s)) (Runner.m_outliers r);
   Runner.Modify_probabilities (Runner.compared r fixed s)] ++
  Runner.info r
    (Runner.Iteration (Runner.iter s)
       (Runner.relative_change (Probabilities.l (Runner.estep r fixed s))
                               (Runner.l s))
       (Result.sigma2 (Runner.result s))) ++
  [Runner.Compute fixed moving (Runner.estep r fixed s)
     (Result.sigma2 (Runner.result s))].
Proof. unfold Runner.loop_body. destruct compute. reflexivity. Qed.

(** The states of a run, turn by turn. *)
Lemma state_after_zero r fixed moving :
  Runner.state_after r fixed moving 0 = Runner.loop_entry r fixed moving.
Proof. reflexivity. Qed.

Lemma state_after_succ r fixed moving k :
  Runner.state_after r fixed moving (S k) =
  Runner.loop_body r (Runner.fixed_ptr r fixed moving)
    (Runner.moving_ptr r fixed moving) (Runner.state_after r fixed moving k).
Proof. unfold Runner.state_after. now rewrite Nat.iter_succ. Qed.

(** The loop runs the body some [n] times: the test holds before each of
    them, and fails after the last unless the fuel is spent. *)
Lemma while_loop_turns r fixed moving fuel :
  forall s, exists n : nat,
    (n <= fuel)%nat /\
    Runner.while_loop r fixed moving fuel s =
      Nat.iter n (Runner.loop_body r fixed moving) s /\
    (forall k, (k < n)%nat ->
       Runner.loop_cond r (Nat.iter k (Runner.loop_body r fixed moving) s) = true) /\
    ((n < fuel)%nat ->
       Runner.loop_cond r (Nat.iter n (Runner.loop_body r fixed moving) s) = false).
Proof.
  induction fuel as [|fuel IH]; intros s.
  - exists O. split; [lia|]. split; [reflexivity|]. split; intros; lia.
  - simpl. destruct (Runner.loop_cond r s) eqn:Hc.
    + destruct (IH (Runner.loop_body r fixed moving s))
        as (n & Hn & Heq & Hlt & Hex).
      exists (S n). rewrite !Nat.iter_succ_r.
      split; [lia|]. split; [exact Heq|]. split.
      * intros [|k] Hk; [exact Hc|].
        rewrite Nat.iter_succ_r. apply Hlt. lia.
      * intros Hlt'. apply Hex. lia.
    + exists O. split; [lia|]. split; [reflexivity|]. split.
      * intros k Hk. lia.
      * intros _. exact Hc.
Qed.

(** [iter] counts the turns, as long as the count fits a [size_t]. *)
Lemma iter_state_after r fixed moving k :
  size_t_wf (N.of_nat k) ->
  Runner.iter (Runner.state_after r fixed moving k) = N.of_nat k.
Proof.
  unfold size_t_wf. induction k as [|k IH]; intros Hk.
  - reflexivity.
  - rewrite state_after_succ, iter_loop_body, IH by lia.
    unfold size_t_incr. rewrite N.mod_small by lia. lia.
Qed.

(** Counting events along a trace. *)
Lemma count_app (f : Runner.event Matrix Vector P -> bool) tr1 tr2 :
  Runner.count f (tr1 ++ tr2) = (Runner.count f tr1 + Runner.count f tr2)%nat.
Proof. unfold Runner.count. now rewrite filter_app, length_app. Qed.

Lemma count_info (f : Runner.event Matrix Vector P -> bool) r m :
  (forall m', f (Runner.Info m') = false) ->
  Runner.count f (Runner.info r m) = O.
Proof.
  intros Hf. unfold Runner.info, Runner.count.
  destruct (Runner.m_logger r); cbn; [rewrite Hf|]; reflexivity.
Qed.

(** Nothing is compared or computed before the loop. *)
Lemma count_loop_entry (f : Runner.event Matrix Vector P -> bool) r fixed moving :
  (forall m, f (Runner.Info m) = false) ->
  (forall a b, f (Runner.Normalize a b) = false) ->
  (forall a b, f (Runner.Init a b) = false) ->
  (forall a b, f (Runner.Default_sigma2 a b) = false) ->
  Runner.count f (Runner.trace (Runner.loop_entry r fixed moving)) = O.
Proof.
  intros Hi Hn Ht Hd. unfold Runner.loop_entry. cbn [Runner.trace].
  rewrite !count_app, !count_info by assumption.
  replace (Runner.count f (if Runner.m_normalize r
                           then [Runner.Normalize fixed moving] else [])) with O
    by (destruct (Runner.m_normalize r); unfold Runner.count; cbn;
        [rewrite Hn|]; reflexivity).
  unfold Runner.count at 1. cbn [filter]. rewrite Ht. cbn [length].
  destruct (PrimFloat.eqb (Runner.m_sigma2 r) 0).
  - change (Runner.count f (?e :: ?tl)) with (Runner.count f ([e] ++ tl)).
    rewrite count_app, count_info by assumption.
    unfold Runner.count. cbn. now rewrite Hd.
  - now rewrite count_info.
Qed.

(** Each turn of the body makes one call of each kind. *)
Lemma count_state_after (f : Runner.event Matrix Vector P -> bool) r fixed moving :
  (forall m, f (Runner.Info m) = false) ->
  (forall a b, f (Runner.Normalize a b) = false) ->
  (forall a b, f (Runner.Init a b) = false) ->
  (forall a b, f (Runner.Default_sigma2 a b) = false) ->
  forall c m q : bool,
  (forall a b x y, f (Runner.Compare a b x y) = c) ->
  (forall p, f (Runner.Modify_probabilities p) = m) ->
  (forall a b p x, f (Runner.Compute a b p x) = q) ->
  forall k,
  Runner.count f (Runner.trace (Runner.state_after r fixed moving k)) =
  (k * (Nat.b2n c + Nat.b2n m + Nat.b2n q))%nat.
Proof.
  intros Hi Hn Ht Hd c m q Hc Hm Hq k. induction k as [|k IH].
  - now apply count_loop_entry.
  - rewrite state_after_succ, trace_loop_body, !count_app, IH, count_info
      by assumption.
    unfold Runner.count. cbn [filter]. rewrite Hc, Hm, Hq.
    destruct c, m, q; cbn; lia.
Qed.

(** The events of a run: those of the loop, then the two optional calls. *)
Lemma events_run r elapsed fixed moving :
  Runner.events (Runner.run r elapsed fixed moving) =
  Runner.trace (Runner.loop_exit r fixed moving) ++
  match Runner.normalization r fixed moving with
  | Some n => [Runner.Denormalize n (Runner.result (Runner.loop_exit r fixed moving))]
  | None => []
  end ++
  (if Runner.m_correspondence r
   then [Runner.Direct_compare fixed
           (Result.points (Runner.denormalized r fixed moving))
           (Runner.m_sigma2 r) (Runner.m_outliers r)]
   else []).
Proof.
  unfold Runner.run. destruct (Runner.m_correspondence r); cbn.
  - now rewrite <- app_assoc.
  - now rewrite !app_nil_r.
Qed.

Lemma iterations_run r elapsed fixed moving :
  Result.iterations (Runner.returned (Runner.run r elapsed fixed moving)) =
  Runner.iter (Runner.loop_exit r fixed moving).
Proof. unfold Runner.run. now destruct (Runner.m_correspondence r). Qed.

(** The loop of a run stops at the first state whose test fails, after at
    most [m_max_iterations] turns. *)
Lemma loop_exit_turns r fixed moving :
  size_t_wf (Runner.m_max_iterations r) ->
  exists n : nat,
    (N.of_nat n <= Runner.m_max_iterations r)%N /\
    Runner.loop_exit r fixed moving = Runner.state_after r fixed moving n /\
    (forall k, (k < n)%nat ->
       Runner.loop_cond r (Runner.state_after r fixed moving k) = true) /\
    Runner.loop_cond r (Runner.state_after r fixed moving n) = false.
Proof.
  intros Hwf. unfold Runner.loop_exit.
  destruct (while_loop_turns r (Runner.fixed_ptr r fixed moving)
              (Runner.moving_ptr r fixed moving)
              (N.to_nat (Runner.m_max_iterations r))
              (Runner.loop_entry r fixed moving)) as (n & Hn & Heq & Hlt & Hex).
  exists n. split; [lia|]. split; [exact Heq|]. split; [exact Hlt|].
  destruct (Nat.eq_dec n (N.to_nat (Runner.m_max_iterations r))) as [Hmax|Hne].
  - unfold Runner.loop_cond. rewrite iter_state_after.
    + replace (N.of_nat n) with (Runner.m_max_iterations r) by lia.
      now rewrite N.ltb_irrefl.
    + unfold size_t_wf in *. lia.
  - apply Hex. lia.
Qed.

End Loop.

Section Events.
Context {Matrix Vector T P : Type}.
Context {E : Eigen Matrix Vector} {L : cpd.Library Matrix Vector}.
Context {Tr : Transform Matrix Vector T P}.
Implicit Type r : Runner Matrix Vector T.
Implicit Types fixed moving : Matrix.

(** Whatever the cap, the loop exits in a state reached by turns of the body. *)
Lemma loop_exit_state r fixed moving :
  exists n : nat, Runner.loop_exit r fixed moving = Runner.state_after r fixed moving n.
Proof.
  destruct (while_loop_turns r (Runner.fixed_ptr r fixed moving)
              (Runner.moving_ptr r fixed moving)
              (N.to_nat (Runner.m_max_iterations r))
              (Runner.loop_entry r fixed moving)) as (n & _ & Heq & _).
  now exists n.
Qed.

Lemma count_zero_In (f : Runner.event Matrix Vector P -> bool) tr e :
  Runner.count f tr = O -> In e tr -> f e = false.
Proof.
  unfold Runner.count. intros Hz Hin. destruct (f e) eqn:Hf; [|reflexivity].
  apply length_zero_iff_nil in Hz.
  assert (Hin' : In e (filter f tr)) by (apply filter_In; auto).
  rewrite Hz in Hin'. destruct Hin'.
Qed.

(** The loop never calls the direct comparer. *)
Lemma loop_exit_no_direct_compare r fixed moving :
  Runner.count Runner.is_direct_compare
    (Runner.trace (Runner.loop_exit r fixed moving)) = O.
Proof.
  destruct (loop_exit_state r fixed moving) as (n & ->).
  rewrite count_state_after with (c := false) (m := false) (q := false);
    try reflexivity. cbn. lia.
Qed.

(** The result and the points a run returns. *)
Lemma points_run r elapsed fixed moving :
  Result.points (Runner.returned (Runner.run r elapsed fixed moving)) =
  Result.points (Runner.denormalized r fixed moving).
Proof. unfold Runner.run. now destruct (Runner.m_correspondence r). Qed.

Lemma sigma2_run r elapsed fixed moving :
  Result.sigma2 (Runner.returned (Runner.run r elapsed fixed moving)) =
  Result.sigma2 (Runner.denormalized r fixed moving).
Proof. unfold Runner.run. now destruct (Runner.m_correspondence r). Qed.

Lemma correspondence_run r elapsed fixed moving :
  Result.correspondence (Runner.returned (Runner.run r elapsed fixed moving)) =
  if Runner.m_correspondence r
  then Probabilities.correspondence
         (cpd.DirectComparer_compute fixed
            (Result.points (Runner.denormalized r fixed moving))
            (Runner.m_sigma2 r) (Runner.m_outliers r))
  else Result.correspondence (Runner.denormalized r fixed moving).
Proof. unfold Runner.run. now destruct (Runner.m_correspondence r). Qed.

(** The calls of a run to the direct comparer. *)
Lemma count_direct_compare_run r elapsed fixed moving :
  Runner.count Runner.is_direct_compare
    (Runner.events (Runner.run r elapsed fixed moving)) =
  Nat.b2n (Runner.m_correspondence r).
Proof.
  rewrite events_run, !count_app, loop_exit_no_direct_compare.
  destruct (Runner.normalization r fixed moving), (Runner.m_correspondence r);
    reflexivity.
Qed.

Lemma direct_compare_In r elapsed fixed moving f p x w :
  In (Runner.Direct_compare f p x w)
     (Runner.events (Runner.run r elapsed fixed moving)) ->
  Runner.m_correspondence r = true /\
  f = fixed /\
  p = Result.points (Runner.returned (Runner.run r elapsed fixed moving)) /\
  x = Runner.m_sigma2 r /\ w = Runner.m_outliers r.
Proof.
  rewrite points_run, events_run. intros Hin.
  apply in_app_or in Hin as [Hin|Hin].
  - apply (count_zero_In _ _ _ (loop_exit_no_direct_compare r fixed moving))
      in Hin. discriminate Hin.
  - apply in_app_or in Hin as [Hin|Hin].
    + destruct (Runner.normalization r fixed moving); cbn in Hin;
        [destruct Hin as [Hin|[]]; discriminate Hin|destruct Hin].
    + destruct (Runner.m_correspondence r); cbn in Hin; [|destruct Hin].
      destruct Hin as [Hin|[]]. injection Hin as <- <- <- <-. auto.
Qed.

(** With a correspondence-free transform the loop and the denormalization
    leave the correspondence empty. *)
Lemma correspondence_state_after r fixed moving k :
  correspondence_free Tr ->
  Result.correspondence (Runner.result (Runner.state_after r fixed moving k)) = [].
Proof.
  intros [Hc _]. destruct k as [|k]; [reflexivity|].
  rewrite state_after_succ, result_loop_body. apply Hc.
Qed.

Lemma correspondence_denormalized r fixed moving :
  correspondence_free Tr ->
  Result.correspondence (Runner.denormalized r fixed moving) = [].
Proof.
  intros Hf. unfold Runner.denormalized.
  destruct (loop_exit_state r fixed moving) as (n & ->).
  destruct (Runner.normalization r fixed moving).
  - destruct Hf as [Hc Hd]. rewrite Hd.
    apply correspondence_state_after. now split.
  - now apply correspondence_state_after.
Qed.

(** A property of events holds of every event of the loop as soon as it
    holds of the events before the loop and of the four of a turn. *)
Lemma In_state_after (Q : Runner.event Matrix Vector P -> Prop) r fixed moving :
  (forall m, Q (Runner.Info m)) ->
  (forall a b, Q (Runner.Normalize a b)) ->
  (forall a b, Q (Runner.Init a b)) ->
  (forall a b, Q (Runner.Default_sigma2 a b)) ->
  (forall a p x,
     Q (Runner.Compare a p x (Runner.m_outliers r))) ->
  (forall p, Q (Runner.Modify_probabilities p)) ->
  (forall p x,
     Q (Runner.Compute (Runner.fixed_ptr r fixed moving)
          (Runner.moving_ptr r fixed moving) p x)) ->
  forall k e, In e (Runner.trace (Runner.state_after r fixed moving k)) -> Q e.
Proof.
  intros Hi Hn Ht Hd Hc Hm Hq. induction k as [|k IH]; intros e Hin.
  - unfold Runner.state_after, Runner.loop_entry, Runner.info in Hin.
    cbn [Nat.iter nat_rect Runner.trace] in Hin.
    repeat (apply in_app_or in Hin as [Hin|Hin]).
    + destruct (Runner.m_logger r); [destruct Hin as [<-|[]]; auto|destruct Hin].
    + destruct (Runner.m_logger r); [destruct Hin as [<-|[]]; auto|destruct Hin].
    + destruct (Runner.m_normalize r); [destruct Hin as [<-|[]]; auto|destruct Hin].
    + destruct Hin as [<-|[]]; auto.
    + destruct (PrimFloat.eqb (Runner.m_sigma2 r) 0), (Runner.m_logger r);
        cbn in Hin; intuition (subst; auto).
  - rewrite state_after_succ, trace_loop_body in Hin.
    apply in_app_or in Hin as [Hin|Hin]; [now apply IH|].
    apply in_app_or in Hin as [Hin|Hin].
    + destruct Hin as [<-|[<-|[]]]; auto.
    + apply in_app_or in Hin as [Hin|Hin].
      * unfold Runner.info in Hin. destruct (Runner.m_logger r);
          [destruct Hin as [<-|[]]; auto|destruct Hin].
      * destruct Hin as [<-|[]]. auto.
Qed.

(** The same for the events of a whole run. *)
Lemma In_run (Q : Runner.event Matrix Vector P -> Prop) r elapsed fixed moving :
  (forall m, Q (Runner.Info m)) ->
  (forall a b, Q (Runner.Normalize a b)) ->
  (forall a b, Q (Runner.Init a b)) ->
  (forall a b, Q (Runner.Default_sigma2 a b)) ->
  (forall a p x,
     Q (Runner.Compare a p x (Runner.m_outliers r))) ->
  (forall p, Q (Runner.Modify_probabilities p)) ->
  (forall p x,
     Q (Runner.Compute (Runner.fixed_ptr r fixed moving)
          (Runner.moving_ptr r fixed moving) p x)) ->
  (forall a b, Q (Runner.Denormalize a b)) ->
  (forall a b x y, Q (Runner.Direct_compare a b x y)) ->
  forall e, In e (Runner.events (Runner.run r elapsed fixed moving)) -> Q e.
Proof.
  intros Hi Hn Ht Hd Hc Hm Hq Hde Hdi e.
  rewrite events_run. destruct (loop_exit_state r fixed moving) as (n & ->).
  intros Hin. apply in_app_or in Hin as [Hin|Hin].
  - now apply (In_state_after Q r fixed moving Hi Hn Ht Hd Hc Hm Hq n).
  - apply in_app_or in Hin as [Hin|Hin].
    + destruct (Runner.normalization r fixed moving);
        [destruct Hin as [<-|[]]; auto|destruct Hin].
    + destruct (Runner.m_correspondence r);
        [destruct Hin as [<-|[]]; auto|destruct Hin].
Qed.

(** Every call to the transform's [compute] is given the clouds the loop
    started from. *)
Lemma compute_In_run r elapsed fixed moving f m p x :
  In (Runner.Compute f m p x)
     (Runner.events (Runner.run r elapsed fixed moving)) ->
  f = Runner.fixed_ptr r fixed moving /\ m = Runner.moving_ptr r fixed moving.
Proof.
  intros Hin.
  change ((fun e : Runner.event Matrix Vector P =>
             match e with
                    | Runner.Compute f m _ _ =>
                        f = Runner.fixed_ptr r fixed moving /\
                        m = Runner.moving_ptr r fixed moving
                    | _ => True
                    end) (Runner.Compute f m p x)).
  eapply In_run; [..|exact Hin]; cbn; auto.
Qed.

(** Every call to the comparer is given the stored outlier weight. *)
Lemma compare_In_run r elapsed fixed moving f p x w :
  In (Runner.Compare f p x w)
     (Runner.events (Runner.run r elapsed fixed moving)) ->
  w = Runner.m_outliers r.
Proof.
  intros Hin.
  change ((fun e : Runner.event Matrix Vector P =>
             match e with
                    | Runner.Compare _ _ _ w => w = Runner.m_outliers r
                    | _ => True
                    end) (Runner.Compare f p x w)).
  eapply In_run; [..|exact Hin]; cbn; auto.
Qed.

End Events.

(** The nonrigid transform is correspondence-free. *)
Lemma nonrigid_correspondence_free {Matrix Vector : Type}
  {E : Eigen Matrix Vector} {L : cpd.Library Matrix Vector} (beta lambda : double) :
  correspondence_free (Nonrigid_Transform beta lambda).
Proof. split; reflexivity. Qed.

(** ** Configuration *)

(** C8: a default-constructed runner allows 150 iterations, normalizes, has
    outlier weight 0.1, tolerance 1e-5 and sigma2 0.0 (so that the variance is
    computed from the data), and computes no correspondence. *)
Theorem default_runner_configuration
  (Matrix Vector T P : Type) (E : Eigen Matrix Vector)
  (L : cpd.Library Matrix Vector) (Tr : Transform Matrix Vector T P)
  (logger : bool) (fixed moving : Matrix) :
  let r : Runner Matrix Vector T := Runner.create_default logger in
  Runner.max_iterations r = 150%N /\
  Runner.normalize r = true /\
  Runner.outliers r = 0.1%float /\
  Runner.tolerance r = 1e-5%float /\
  Runner.sigma2 r = 0%float /\
  Runner.initial_sigma2 r fixed moving =
    cpd.default_sigma2 (Runner.fixed_ptr r fixed moving)
                       (Runner.moving_ptr r fixed moving) /\
  Runner.correspondence r = false /\
  Runner.m_comparer r = cpd.Comparer_create /\
  Runner.m_transform r = Transform_default.
Proof. cbv zeta. repeat split. Qed.

(** ** The iteration count *)

Section Iterations.
Context {Matrix Vector T P : Type}.
Context {E : Eigen Matrix Vector} {L : cpd.Library Matrix Vector}.
Context {Tr : Transform Matrix Vector T P}.
Implicit Type r : Runner Matrix Vector T.
Implicit Types fixed moving : Matrix.

(** More fuel than [m_max_iterations] changes nothing: the loop leaves through
    its test. *)
Lemma while_loop_fuel r fixed moving n fuel :
  (forall k, (k < n)%nat ->
     Runner.loop_cond r (Runner.state_after r fixed moving k) = true) ->
  Runner.loop_cond r (Runner.state_after r fixed moving n) = false ->
  (n <= fuel)%nat ->
  Runner.while_loop r (Runner.fixed_ptr r fixed moving)
    (Runner.moving_ptr r fixed moving) fuel (Runner.loop_entry r fixed moving) =
  Runner.state_after r fixed moving n.
Proof.
  intros Hlt Hex Hfuel.
  destruct (while_loop_turns r (Runner.fixed_ptr r fixed moving)
              (Runner.moving_ptr r fixed moving) fuel
              (Runner.loop_entry r fixed moving)) as (n' & Hn' & Heq & Hlt' & Hex').
  fold (Runner.state_after r fixed moving n') in *.
  rewrite Heq. f_equal.
  destruct (Nat.lt_trichotomy n' n) as [Hc|[Hc|Hc]]; [|exact Hc|].
  - rewrite Hlt in Hex' by exact Hc. discriminate Hex'. lia.
  - unfold Runner.state_after in Hex. rewrite Hlt' in Hex by exact Hc.
    discriminate Hex.
Qed.

(** C1: the body runs only while [iter < m_max_iterations], [ntol >
    m_tolerance] and [sigma2 > 10 * epsilon] all hold; the loop stops at the
    first state where one of them fails, whatever the fuel; the returned
    [iterations] is the number [n] of turns of the body, which is the number
    of calls to the comparer and to the transform's [compute], and is at most
    [m_max_iterations]. *)
Theorem run_iterations r elapsed fixed moving :
  size_t_wf (Runner.m_max_iterations r) ->
  exists n : nat,
    (forall k, (k < n)%nat ->
       let s := Runner.state_after r fixed moving k in
       Runner.iter s = N.of_nat k /\
       (Runner.iter s <? Runner.m_max_iterations r)%N = true /\
       gtb (Runner.ntol s) (Runner.m_tolerance r) = true /\
       gtb (Result.sigma2 (Runner.result s)) (10 * epsilon)%float = true) /\
    (let s := Runner.state_after r fixed moving n in
     (Runner.iter s <? Runner.m_max_iterations r)%N &&
     gtb (Runner.ntol s) (Runner.m_tolerance r) &&
     gtb (Result.sigma2 (Runner.result s)) (10 * epsilon)%float = false) /\
    (forall fuel, (N.to_nat (Runner.m_max_iterations r) <= fuel)%nat ->
       Runner.while_loop r (Runner.fixed_ptr r fixed moving)
         (Runner.moving_ptr r fixed moving) fuel
         (Runner.loop_entry r fixed moving) =
       Runner.state_after r fixed moving n) /\
    Result.iterations (Runner.returned (Runner.run r elapsed fixed moving)) =
      N.of_nat n /\
    (N.of_nat n <= Runner.m_max_iterations r)%N /\
    Runner.count Runner.is_compare
      (Runner.events (Runner.run r elapsed fixed moving)) = n /\
    Runner.count Runner.is_compute
      (Runner.events (Runner.run r elapsed fixed moving)) = n.
Proof.
  intros Hwf.
  destruct (loop_exit_turns r fixed moving Hwf) as (n & Hn & Heq & Hlt & Hex).
  assert (Hit : Runner.iter (Runner.state_after r fixed moving n) = N.of_nat n)
    by (apply iter_state_after; unfold size_t_wf in *; lia).
  assert (Hcount : forall f,
    (forall m, f (Runner.Info m) = false) ->
    (forall a b, f (Runner.Normalize a b) = false) ->
    (forall a b, f (Runner.Init a b) = false) ->
    (forall a b, f (Runner.Default_sigma2 a b) = false) ->
    (forall a b, f (Runner.Denormalize a b) = false) ->
    (forall a b x y, f (Runner.Direct_compare a b x y) = false) ->
    forall c m q : bool,
    (forall a b x y, f (Runner.Compare a b x y) = c) ->
    (forall p, f (Runner.Modify_probabilities p) = m) ->
    (forall a b p x, f (Runner.Compute a b p x) = q) ->
    Runner.count f (Runner.events (Runner.run r elapsed fixed moving)) =
    (n * (Nat.b2n c + Nat.b2n m + Nat.b2n q))%nat).
  { intros f Hi Hno Hin Hd Hde Hdi c m q Hc Hm Hq.
    rewrite events_run, !count_app, Heq.
    rewrite count_state_after with (c := c) (m := m) (q := q) by assumption.
    destruct (Runner.normalization r fixed moving),
             (Runner.m_correspondence r);
      unfold Runner.count; cbn; rewrite ?Hde, ?Hdi; cbn; lia. }
  exists n. split; [|split; [|split; [|split; [|split; [|split]]]]].
  - intros k Hk s. specialize (Hlt k Hk). fold s in Hlt.
    unfold Runner.loop_cond in Hlt.
    apply andb_prop in Hlt as [Hlt H3]. apply andb_prop in Hlt as [H1 H2].
    split; [|auto].
    apply iter_state_after. unfold size_t_wf in *. lia.
  - exact Hex.
  - intros fuel Hfuel. apply while_loop_fuel; [exact Hlt|exact Hex|lia].
  - now rewrite iterations_run, Heq.
  - exact Hn.
  - rewrite (Hcount Runner.is_compare) with (c := true) (m := false) (q := false);
      try reflexivity. cbn. lia.
  - rewrite (Hcount Runner.is_compute) with (c := false) (m := false) (q := true);
      try reflexivity. cbn. lia.
Qed.

End Iterations.

(** The default runner on a small pair of clouds. *)
Lemma run_iterations_witness :
  size_t_wf (Runner.m_max_iterations Dense.runner) /\
  (Result.iterations
     (Runner.returned (Runner.run Dense.runner 0%Z Dense.square Dense.shifted))
   <= 150)%N.
Proof.
  assert (H : size_t_wf (Runner.m_max_iterations Dense.runner))
    by (vm_compute; reflexivity).
  split; [exact H|].
  destruct (run_iterations Dense.runner 0%Z Dense.square Dense.shifted H)
    as (n & _ & _ & _ & Hit & Hle & _).
  rewrite Hit. exact Hle.
Defined.

(** ** The start of a run *)

Section Start.
Context {Matrix Vector T P : Type}.
Context {E : Eigen Matrix Vector} {L : cpd.Library Matrix Vector}.
Context {Tr : Transform Matrix Vector T P}.
Implicit Type r : Runner Matrix Vector T.
Implicit Types fixed moving : Matrix.

(** A positive double does not compare equal to zero. *)
Lemma positive_not_zero (x : double) :
  PrimFloat.ltb 0 x = true -> PrimFloat.eqb x 0 = false.
Proof.
  rewrite ltb_spec, eqb_spec.
  change (Prim2SF 0) with (S754_zero false).
  destruct (Prim2SF x) as [[]|[]| |[]]; cbn; congruence.
Qed.

(** C6: the variance the loop starts from is the configured [m_sigma2] when
    that compares unequal to zero, and otherwise the value of
    [default_sigma2] on the clouds the loop works on, which is then the only
    case in which [default_sigma2] is called; the first call to the comparer
    receives this variance.  A zero [m_sigma2] selects the default, and any
    positive one is used as it is. *)
Theorem initial_sigma2_source r fixed moving :
  let s0 := Runner.loop_entry r fixed moving in
  let fixed_ptr := Runner.fixed_ptr r fixed moving in
  let moving_ptr := Runner.moving_ptr r fixed moving in
  (if PrimFloat.eqb (Runner.m_sigma2 r) 0
   then Result.sigma2 (Runner.result s0) =
          cpd.default_sigma2 fixed_ptr moving_ptr /\
        Runner.count Runner.is_default_sigma2 (Runner.trace s0) = 1%nat /\
        In (Runner.Default_sigma2 fixed_ptr moving_ptr) (Runner.trace s0)
   else Result.sigma2 (Runner.result s0) = Runner.m_sigma2 r /\
        Runner.count Runner.is_default_sigma2 (Runner.trace s0) = 0%nat) /\
  Runner.compared r fixed_ptr s0 =
    Runner.m_comparer r fixed_ptr moving_ptr (Runner.initial_sigma2 r fixed moving)
      (Runner.m_outliers r) /\
  (Runner.m_sigma2 r = 0%float ->
   Result.sigma2 (Runner.result s0) = cpd.default_sigma2 fixed_ptr moving_ptr) /\
  (PrimFloat.ltb 0 (Runner.m_sigma2 r) = true ->
   Result.sigma2 (Runner.result s0) = Runner.m_sigma2 r).
Proof.
  cbv zeta.
  assert (Hcount : Runner.count Runner.is_default_sigma2
            (Runner.trace (Runner.loop_entry r fixed moving)) =
          Nat.b2n (PrimFloat.eqb (Runner.m_sigma2 r) 0)).
  { unfold Runner.loop_entry. cbn [Runner.trace].
    rewrite !count_app, !count_info by reflexivity.
    destruct (Runner.m_normalize r), (PrimFloat.eqb (Runner.m_sigma2 r) 0);
      unfold Runner.count, Runner.info; destruct (Runner.m_logger r); reflexivity. }
  split; [|split; [reflexivity|split]].
  - unfold Runner.loop_entry, Runner.initial_sigma2 in *. cbn in *.
    destruct (PrimFloat.eqb (Runner.m_sigma2 r) 0).
    + split; [reflexivity|]. split; [exact Hcount|].
      rewrite !in_app_iff. do 3 right. right. now left.
    + split; [reflexivity|exact Hcount].
  - intros Hz. unfold Runner.loop_entry, Runner.initial_sigma2. cbn.
    now rewrite Hz.
  - intros Hpos. unfold Runner.loop_entry, Runner.initial_sigma2. cbn.
    now rewrite positive_not_zero.
Qed.

(** C9: with [m_max_iterations = 0] the loop exits at once: the comparer
    and the transform's [modify_probabilities] and [compute] are never called,
    [iterations] is 0, and the returned points are the moving cloud itself, or,
    when the runner normalizes, the denormalization of the normalized moving
    cloud. *)
Theorem run_without_iterations r elapsed fixed moving :
  Runner.m_max_iterations r = 0%N ->
  let o := Runner.run r elapsed fixed moving in
  let s0 := Runner.loop_entry r fixed moving in
  Runner.loop_exit r fixed moving = s0 /\
  Runner.count Runner.is_compare (Runner.events o) = 0%nat /\
  Runner.count Runner.is_modify (Runner.events o) = 0%nat /\
  Runner.count Runner.is_compute (Runner.events o) = 0%nat /\
  Result.iterations (Runner.returned o) = 0%N /\
  Result.points (Runner.result s0) = Runner.moving_ptr r fixed moving /\
  Result.points (Runner.returned o) =
    match Runner.normalization r fixed moving with
    | Some n =>
        Result.points
          (denormalize
             (init (Runner.m_transform r) (Normalization.fixed n)
                   (Normalization.moving n))
             n (Runner.result s0))
    | None => moving
    end.
Proof.
  intros Hmax o s0.
  assert (Hexit : Runner.loop_exit r fixed moving = s0)
    by (unfold Runner.loop_exit; rewrite Hmax; reflexivity).
  assert (Hcount : forall f,
    (forall m, f (Runner.Info m) = false) ->
    (forall a b, f (Runner.Normalize a b) = false) ->
    (forall a b, f (Runner.Init a b) = false) ->
    (forall a b, f (Runner.Default_sigma2 a b) = false) ->
    (forall a b, f (Runner.Denormalize a b) = false) ->
    (forall a b x y, f (Runner.Direct_compare a b x y) = false) ->
    Runner.count f (Runner.events o) = O).
  { intros f Hi Hno Hin Hd Hde Hdi. unfold o.
    rewrite events_run, !count_app, Hexit.
    unfold s0. rewrite count_loop_entry by assumption.
    destruct (Runner.normalization r fixed moving),
             (Runner.m_correspondence r);
      unfold Runner.count; cbn; rewrite ?Hde, ?Hdi; reflexivity. }
  split; [exact Hexit|].
  split; [now apply Hcount|]. split; [now apply Hcount|].
  split; [now apply Hcount|].
  split; [unfold o; rewrite iterations_run, Hexit; reflexivity|].
  split; [reflexivity|].
  unfold o. rewrite points_run. unfold Runner.denormalized. rewrite Hexit.
  unfold Runner.moving_ptr, Runner.fixed_ptr, s0, Runner.loop_entry.
  cbn [Runner.transform Runner.result].
  unfold Runner.moving_ptr, Runner.fixed_ptr.
  destruct (Runner.normalization r fixed moving); reflexivity.
Qed.

End Start.

(** A positive configured variance. *)
Lemma initial_sigma2_source_witness :
  Result.sigma2
    (Runner.result
       (Runner.loop_entry (Runner.set_sigma2 Dense.runner 1%float) Dense.square
                          Dense.shifted)) = 1%float.
Proof.
  apply (initial_sigma2_source (Runner.set_sigma2 Dense.runner 1%float) Dense.square
           Dense.shifted).
  reflexivity.
Defined.

(** The default runner with its cap set to zero. *)
Lemma run_without_iterations_witness :
  Runner.m_max_iterations (Runner.set_max_iterations Dense.runner 0%N) = 0%N /\
  Result.iterations
    (Runner.returned
       (Runner.run (Runner.set_max_iterations Dense.runner 0%N) 0%Z Dense.square
                   Dense.shifted)) = 0%N.
Proof.
  split; [reflexivity|].
  apply (run_without_iterations (Runner.set_max_iterations Dense.runner 0%N) 0%Z
           Dense.square Dense.shifted).
  reflexivity.
Defined.

(** ** The correspondence pass *)

Section Correspondence.
Context {Matrix Vector T P : Type}.
Context {E : Eigen Matrix Vector} {L : cpd.Library Matrix Vector}.
Context {Tr : Transform Matrix Vector T P}.
Implicit Type r : Runner Matrix Vector T.
Implicit Types fixed moving : Matrix.

(** C5: when [m_correspondence] is set, a run ends with one call to the
    direct comparer, made after the loop and after the denormalization, on
    the caller's fixed cloud and the returned points, whatever comparer the
    runner holds, and the returned correspondence is the one of that call;
    when it is not set, the direct comparer is never called and the run
    leaves the correspondence as the transform produced it, which is empty
    for a correspondence-free transform. *)
Theorem correspondence_pass r elapsed fixed moving :
  let o := Runner.run r elapsed fixed moving in
  let pass :=
    Runner.Direct_compare fixed (Result.points (Runner.returned o))
      (Runner.m_sigma2 r) (Runner.m_outliers r) in
  let before :=
    Runner.trace (Runner.loop_exit r fixed moving) ++
    match Runner.normalization r fixed moving with
    | Some n =>
        [Runner.Denormalize n (Runner.result (Runner.loop_exit r fixed moving))]
    | None => []
    end in
  Runner.count Runner.is_direct_compare before = 0%nat /\
  if Runner.m_correspondence r
  then
    Runner.events o = before ++ [pass] /\
    Runner.count Runner.is_direct_compare (Runner.events o) = 1%nat /\
    Result.correspondence (Runner.returned o) =
      Probabilities.correspondence
        (cpd.DirectComparer_compute fixed (Result.points (Runner.returned o))
           (Runner.m_sigma2 r) (Runner.m_outliers r))
  else
    Runner.events o = before /\
    Runner.count Runner.is_direct_compare (Runner.events o) = 0%nat /\
    Result.correspondence (Runner.returned o) =
      Result.correspondence (Runner.denormalized r fixed moving) /\
    (correspondence_free Tr -> Result.correspondence (Runner.returned o) = []).
Proof.
  cbv zeta.
  assert (Hbefore : Runner.count Runner.is_direct_compare
            (Runner.trace (Runner.loop_exit r fixed moving) ++
             match Runner.normalization r fixed moving with
             | Some n =>
                 [Runner.Denormalize n
                    (Runner.result (Runner.loop_exit r fixed moving))]
             | None => []
             end) = O).
  { rewrite count_app, loop_exit_no_direct_compare.
    now destruct (Runner.normalization r fixed moving). }
  split; [exact Hbefore|].
  pose proof (count_direct_compare_run r elapsed fixed moving) as Hcount.
  pose proof (correspondence_run r elapsed fixed moving) as Hcorr.
  pose proof (events_run r elapsed fixed moving) as Hev.
  rewrite points_run.
  destruct (Runner.m_correspondence r).
  - split; [now rewrite Hev, app_assoc|]. split; [exact Hcount|exact Hcorr].
  - split; [now rewrite Hev, app_nil_r|]. split; [exact Hcount|].
    split; [exact Hcorr|].
    intros Hfree. rewrite Hcorr. now apply correspondence_denormalized.
Qed.

(** C10: the variance handed to the correspondence pass is the configured
    [m_sigma2], not the variance the loop ended with; when [m_sigma2] was left
    at zero, so that the loop started from [default_sigma2], the pass is
    therefore made at a zero variance. *)
Theorem correspondence_pass_sigma2 r elapsed fixed moving :
  Runner.m_correspondence r = true ->
  let o := Runner.run r elapsed fixed moving in
  (exists before,
     Runner.events o =
     before ++ [Runner.Direct_compare fixed (Result.points (Runner.returned o))
                  (Runner.m_sigma2 r) (Runner.m_outliers r)]) /\
  (forall f p x w,
     In (Runner.Direct_compare f p x w) (Runner.events o) ->
     x = Runner.m_sigma2 r) /\
  Result.correspondence (Runner.returned o) =
    Probabilities.correspondence
      (cpd.DirectComparer_compute fixed (Result.points (Runner.returned o))
         (Runner.m_sigma2 r) (Runner.m_outliers r)) /\
  Result.sigma2 (Runner.returned o) =
    Result.sigma2 (Runner.denormalized r fixed moving) /\
  (PrimFloat.eqb (Runner.m_sigma2 r) 0 = true ->
   Result.sigma2 (Runner.result (Runner.loop_entry r fixed moving)) =
     cpd.default_sigma2 (Runner.fixed_ptr r fixed moving)
                        (Runner.moving_ptr r fixed moving) /\
   forall f p x w,
     In (Runner.Direct_compare f p x w) (Runner.events o) ->
     PrimFloat.eqb x 0 = true).
Proof.
  intros Hflag o. split; [|split; [|split; [|split]]].
  - unfold o. rewrite events_run, points_run, Hflag, app_assoc. eauto.
  - intros f p x w Hin. now apply direct_compare_In in Hin.
  - unfold o. now rewrite correspondence_run, points_run, Hflag.
  - apply sigma2_run.
  - intros Hzero. split.
    + unfold Runner.loop_entry, Runner.initial_sigma2. cbn. now rewrite Hzero.
    + intros f p x w Hin. apply direct_compare_In in Hin.
      destruct Hin as (_ & _ & _ & -> & _). exact Hzero.
Qed.

End Correspondence.

(** The nonrigid runner without correspondence returns none. *)
Lemma correspondence_pass_witness :
  Result.correspondence
    (Runner.returned (Runner.run Dense.runner 0%Z Dense.square Dense.shifted)) = [].
Proof.
  apply (correspondence_pass Dense.runner 0%Z Dense.square Dense.shifted).
  apply nonrigid_correspondence_free.
Defined.

(** On the default runner with correspondence requested the loop ends at a
    variance that is not zero, and the pass is made at zero. *)
Lemma correspondence_pass_sigma2_witness :
  let o := Runner.run Dense.corresponding_runner 0%Z Dense.square Dense.shifted in
  Runner.m_correspondence Dense.corresponding_runner = true /\
  PrimFloat.eqb (Runner.m_sigma2 Dense.corresponding_runner) 0 = true /\
  PrimFloat.eqb (Result.sigma2 (Runner.returned o)) 0 = false /\
  forall f p x w,
    In (Runner.Direct_compare f p x w) (Runner.events o) ->
    PrimFloat.eqb x 0 = true.
Proof.
  cbv zeta. split; [reflexivity|]. split; [reflexivity|].
  split; [vm_compute; reflexivity|].
  apply (correspondence_pass_sigma2 Dense.corresponding_runner 0%Z Dense.square
           Dense.shifted); reflexivity.
Defined.

(** ** The nonrigid transform in the loop *)

Section Nonrigid_loop.
Context {Matrix Vector : Type}.
Context {E : Eigen Matrix Vector} {L : cpd.Library Matrix Vector}.
Context (DEFAULT_BETA DEFAULT_LAMBDA : double).
Let Tr : Transform Matrix Vector (Nonrigid.t Matrix) unit :=
  Nonrigid_Transform DEFAULT_BETA DEFAULT_LAMBDA.
Local Existing Instance Tr.
Implicit Type r : Runner Matrix Vector (Nonrigid.t Matrix).
Implicit Types fixed moving : Matrix.
Local Open Scope float_scope.

(** The kernel and the two weights of the transform stay what [init] made of
    them; the displacement weights start at zero. *)
Lemma nonrigid_state_after r fixed moving k :
  let t := Runner.transform (Runner.state_after r fixed moving k) in
  let moving_ptr := Runner.moving_ptr r fixed moving in
  Nonrigid.m_g t =
    cpd.affinity moving_ptr moving_ptr (Nonrigid.m_beta (Runner.m_transform r)) /\
  Nonrigid.m_beta t = Nonrigid.m_beta (Runner.m_transform r) /\
  Nonrigid.m_lambda t = Nonrigid.m_lambda (Runner.m_transform r).
Proof.
  induction k as [|k IH]; [cbn; auto|].
  rewrite state_after_succ, transform_loop_body. exact IH.
Qed.

(** C7: in every turn of the loop of a nonrigid run,
    [modify_probabilities] adds [lambda / 2 * trace (W^T * G * W)] to the
    likelihood the comparer returned, [W] being the displacement weights the
    transform holds at that point (zero in the first turn) and [G] the kernel
    made by [init]; the sum is the likelihood that enters the relative change,
    is kept as the previous likelihood for the next turn, and so decides the
    next test of the loop. *)
Theorem nonrigid_penalty_in_convergence_test r fixed moving k :
  let fixed_ptr := Runner.fixed_ptr r fixed moving in
  let moving_ptr := Runner.moving_ptr r fixed moving in
  let s := Runner.state_after r fixed moving k in
  let s' := Runner.state_after r fixed moving (S k) in
  let lambda := Nonrigid.m_lambda (Runner.m_transform r) in
  let G := cpd.affinity moving_ptr moving_ptr
             (Nonrigid.m_beta (Runner.m_transform r)) in
  let W := Nonrigid.m_w (Runner.transform s) in
  let penalty := lambda / 2 * trace (transpose W * G * W)%M in
  let likelihood := Probabilities.l (Runner.compared r fixed_ptr s) + penalty in
  Runner.estep r fixed_ptr s =
    Probabilities.add_l (Runner.compared r fixed_ptr s) penalty /\
  Runner.ntol s' = abs ((likelihood - Runner.l s) / likelihood) /\
  Runner.l s' = likelihood /\
  Runner.loop_cond r s' =
    (Runner.iter s' <? Runner.m_max_iterations r)%N &&
    gtb (abs ((likelihood - Runner.l s) / likelihood)) (Runner.m_tolerance r) &&
    gtb (Result.sigma2 (Runner.result s')) (10 * epsilon) /\
  Nonrigid.m_w (Runner.transform (Runner.loop_entry r fixed moving)) =
    Zero (rows moving_ptr) (cols moving_ptr) /\
  Runner.l (Runner.loop_entry r fixed moving) = 0.
Proof.
  intros fixed_ptr moving_ptr s s' lambda G W penalty likelihood.
  destruct (nonrigid_state_after r fixed moving k) as (Hg & _ & Hl).
  fold s moving_ptr G lambda in Hg, Hl.
  assert (Hestep : Runner.estep r fixed_ptr s =
            Probabilities.add_l (Runner.compared r fixed_ptr s) penalty).
  { unfold Runner.estep. cbn. unfold Nonrigid.modify_probabilities,
      Nonrigid.penalty. fold W. now rewrite Hg, Hl. }
  assert (Hntol : Runner.ntol s' = abs ((likelihood - Runner.l s) / likelihood)).
  { unfold s'. rewrite state_after_succ, ntol_loop_body. fold s fixed_ptr.
    now rewrite Hestep. }
  split; [exact Hestep|]. split; [exact Hntol|]. split; [|split; [|split]].
  - unfold s'. rewrite state_after_succ, l_loop_body. fold s fixed_ptr.
    now rewrite Hestep.
  - unfold Runner.loop_cond. now rewrite Hntol.
  - reflexivity.
  - reflexivity.
Qed.

(** C2: in every turn of the loop of a nonrigid run, [compute] is called
    with the moving cloud the loop started from (never the points of the
    previous turn), its kernel [G] is still the one [init] made from that
    cloud, the new displacement weights [W] are the solver's solution of
    [(diag(p1) * G + lambda * sigma2 * I) * W = px - diag(p1) * moving], and the
    new points are [moving + G * W]. *)
Theorem nonrigid_compute_system r elapsed fixed moving k :
  let fixed_ptr := Runner.fixed_ptr r fixed moving in
  let moving_ptr := Runner.moving_ptr r fixed moving in
  let s := Runner.state_after r fixed moving k in
  let s' := Runner.state_after r fixed moving (S k) in
  let lambda := Nonrigid.m_lambda (Runner.m_transform r) in
  let G := cpd.affinity moving_ptr moving_ptr
             (Nonrigid.m_beta (Runner.m_transform r)) in
  let probabilities := Runner.estep r fixed_ptr s in
  let p1 := Probabilities.p1 probabilities in
  let px := Probabilities.px probabilities in
  let sigma2 := Result.sigma2 (Runner.result s) in
  let W := Nonrigid.m_w (Runner.transform s') in
  Nonrigid.m_g (Runner.transform s) = G /\
  Nonrigid.m_g (Runner.transform s') = G /\
  W = qr_solve
        (dmul p1 G +
         smul (lambda * sigma2)%float
              (Identity (rows moving_ptr) (rows moving_ptr)))%M
        (px - dmul p1 moving_ptr)%M /\
  Result.points (Runner.result s') = (moving_ptr + G * W)%M /\
  In (Runner.Compute fixed_ptr moving_ptr probabilities sigma2) (Runner.trace s') /\
  (forall f m p x,
     In (Runner.Compute f m p x)
        (Runner.events (Runner.run r elapsed fixed moving)) ->
     m = moving_ptr).
Proof.
  intros fixed_ptr moving_ptr s s' lambda G probabilities p1 px sigma2 W.
  destruct (nonrigid_state_after r fixed moving k) as (Hg & _ & Hl).
  destruct (nonrigid_state_after r fixed moving (S k)) as (Hg' & _ & _).
  fold s moving_ptr G lambda in Hg, Hl. fold s' moving_ptr G in Hg'.
  assert (Hw : W = qr_solve
            (dmul p1 G +
             smul (lambda * sigma2)%float
                  (Identity (rows moving_ptr) (rows moving_ptr)))%M
            (px - dmul p1 moving_ptr)%M).
  { unfold W, s'. rewrite state_after_succ, transform_loop_body.
    fold s fixed_ptr moving_ptr.
    cbn. unfold Nonrigid.system_lhs, Nonrigid.system_rhs.
    now rewrite Hg, Hl. }
  split; [exact Hg|]. split; [exact Hg'|]. split; [exact Hw|].
  split; [|split].
  - rewrite Hw. unfold s'. rewrite state_after_succ, result_loop_body.
    fold s fixed_ptr moving_ptr.
    cbn. unfold Nonrigid.system_lhs, Nonrigid.system_rhs.
    now rewrite Hg, Hl.
  - unfold s'. rewrite state_after_succ, trace_loop_body.
    fold s fixed_ptr moving_ptr.
    rewrite !in_app_iff. right. right. right. now left.
  - intros f m p x Hin. now apply compute_In_run in Hin.
Qed.

End Nonrigid_loop.

(** ** The convergence metric *)

Section Metric.
Context {Matrix Vector T P : Type}.
Context {E : Eigen Matrix Vector} {L : cpd.Library Matrix Vector}.
Context {Tr : Transform Matrix Vector T P}.
Implicit Type r : Runner Matrix Vector T.
Implicit Type s : Runner.loop_state Matrix Vector T P.
Implicit Types fixed moving : Matrix.
Local Open Scope float_scope.

(** NaN is greater than nothing. *)
Lemma gtb_nan (x : double) : gtb nan x = false.
Proof.
  unfold gtb. rewrite ltb_spec. change (Prim2SF nan) with S754_nan.
  destruct (Prim2SF x); reflexivity.
Qed.

(** C3, amended: after every turn of the body the metric is the plain
    quotient [|(L - L_prev) / L|] of the modified likelihood [L]; nothing
    guards the division, so a zero [L] with a zero [L_prev] (the value
    [L_prev] has in the first turn) makes the metric NaN, and the loop test
    then fails. *)
Theorem relative_change_unguarded r fixed moving s :
  let likelihood := Probabilities.l (Runner.estep r fixed s) in
  let s' := Runner.loop_body r fixed moving s in
  Runner.ntol s' = abs ((likelihood - Runner.l s) / likelihood) /\
  (likelihood = 0 -> Runner.l s = 0 ->
   Runner.ntol s' = nan /\ Runner.loop_cond r s' = false).
Proof.
  intros likelihood s'.
  assert (Hntol : Runner.ntol s' = abs ((likelihood - Runner.l s) / likelihood))
    by apply ntol_loop_body.
  split; [exact Hntol|].
  intros Hl Hprev.
  assert (Hnan : Runner.ntol s' = nan) by (rewrite Hntol, Hl, Hprev; reflexivity).
  split; [exact Hnan|].
  unfold Runner.loop_cond. rewrite Hnan, gtb_nan.
  now rewrite andb_false_r.
Qed.

End Metric.

(** A comparer whose likelihood is zero: the first metric is NaN and the
    loop ends after one turn. *)
Lemma relative_change_unguarded_witness :
  let r := Dense.flat_runner in
  let fixed_ptr := Runner.fixed_ptr r Dense.square Dense.shifted in
  let moving_ptr := Runner.moving_ptr r Dense.square Dense.shifted in
  let s := Runner.loop_entry r Dense.square Dense.shifted in
  Probabilities.l (Runner.estep r fixed_ptr s) = 0%float /\
  Runner.l s = 0%float /\
  Runner.ntol (Runner.loop_body r fixed_ptr moving_ptr s) = nan /\
  Runner.loop_cond r (Runner.loop_body r fixed_ptr moving_ptr s) = false.
Proof.
  cbv zeta.
  assert (H1 : Probabilities.l
                 (Runner.estep Dense.flat_runner
                    (Runner.fixed_ptr Dense.flat_runner Dense.square Dense.shifted)
                    (Runner.loop_entry Dense.flat_runner Dense.square
                                       Dense.shifted)) = 0%float)
    by (vm_compute; reflexivity).
  split; [exact H1|]. split; [reflexivity|].
  apply (relative_change_unguarded Dense.flat_runner
           (Runner.fixed_ptr Dense.flat_runner Dense.square Dense.shifted)
           (Runner.moving_ptr Dense.flat_runner Dense.square Dense.shifted)
           (Runner.loop_entry Dense.flat_runner Dense.square Dense.shifted));
    [exact H1|reflexivity].
Defined.

(** C3 as stated fails: with a zero likelihood the metric is NaN or
    infinite, here on plain values, on a subnormal likelihood, and in the run
    of a comparer whose likelihood is zero, which logs a NaN change in its
    first turn and stops. *)
Lemma relative_change_not_finite :
  Runner.relative_change 0%float 0%float = nan /\
  Runner.relative_change 0%float 1%float = infinity /\
  Runner.relative_change 0x1p-1074%float 1%float = infinity /\
  let o := Runner.run Dense.flat_runner 0%Z Dense.square Dense.shifted in
  Runner.ntol (Runner.state_after Dense.flat_runner Dense.square Dense.shifted 1)
    = nan /\
  nth_error (Runner.events o) 8 = Some (Runner.Info (Runner.Iteration 0%N nan 1%float)) /\
  Result.iterations (Runner.returned o) = 1%N.
Proof. cbv zeta. repeat split; vm_compute; reflexivity. Qed.

(** * Further properties of the runner *)

(** ** Runs that differ in what the loop does not read *)

Section Compare_runs.
Context {Matrix Vector T P : Type}.
Context {E : Eigen Matrix Vector} {L : cpd.Library Matrix Vector}.
Context {Tr : Transform Matrix Vector T P}.
Implicit Types r : Runner Matrix Vector T.
Implicit Types s : Runner.loop_state Matrix Vector T P.
Implicit Types fixed moving : Matrix.
Implicit Type keep : Runner.event Matrix Vector P -> bool.

Lemma same_settings_clouds r r' fixed moving :
  Trace.same_settings r r' ->
  Runner.normalization r fixed moving = Runner.normalization r' fixed moving /\
  Runner.fixed_ptr r fixed moving = Runner.fixed_ptr r' fixed moving /\
  Runner.moving_ptr r fixed moving = Runner.moving_ptr r' fixed moving /\
  Runner.initial_sigma2 r fixed moving = Runner.initial_sigma2 r' fixed moving.
Proof.
  intros (_ & _ & Hn & _ & Hs & _).
  unfold Runner.initial_sigma2, Runner.fixed_ptr, Runner.moving_ptr,
    Runner.normalization.
  now rewrite Hn, Hs.
Qed.

Lemma restrict_loop_cond keep r r' s s' :
  Trace.same_settings r r' ->
  Trace.restrict keep s = Trace.restrict keep s' ->
  Runner.loop_cond r s = Runner.loop_cond r' s'.
Proof.
  intros (_ & Hm & _ & _ & _ & Ht) Hs. unfold Trace.restrict in Hs.
  injection Hs as Hi Hnt _ Hr _ _. unfold Runner.loop_cond.
  now rewrite Hm, Ht, Hi, Hnt, Hr.
Qed.

Lemma restrict_loop_body keep r r' fixed moving s s' :
  Trace.same_settings r r' ->
  Trace.same_messages keep r r' ->
  Trace.restrict keep s = Trace.restrict keep s' ->
  Trace.restrict keep (Runner.loop_body r fixed moving s) =
  Trace.restrict keep (Runner.loop_body r' fixed moving s').
Proof.
  intros (Hc & _ & _ & Ho & _ & _) Hinfo Hs. unfold Trace.restrict in *.
  injection Hs as Hi Hnt Hl Hr Ht Htr.
  assert (Hcmp : Runner.compared r fixed s = Runner.compared r' fixed s')
    by (unfold Runner.compared; now rewrite Hc, Ho, Hr).
  assert (Hes : Runner.estep r fixed s = Runner.estep r' fixed s')
    by (unfold Runner.estep; now rewrite Hcmp, Ht).
  rewrite !iter_loop_body, !ntol_loop_body, !l_loop_body, !result_loop_body,
    !transform_loop_body, !trace_loop_body, !filter_app.
  now rewrite Hinfo, Hes, Hcmp, Hi, Hl, Hr, Ht, Htr, Ho.
Qed.

Lemma restrict_while_loop keep r r' fixed moving fuel :
  Trace.same_settings r r' ->
  Trace.same_messages keep r r' ->
  forall s s',
  Trace.restrict keep s = Trace.restrict keep s' ->
  Trace.restrict keep (Runner.while_loop r fixed moving fuel s) =
  Trace.restrict keep (Runner.while_loop r' fixed moving fuel s').
Proof.
  intros Hset Hinfo. induction fuel as [|fuel IH]; intros s s' Hs;
    [exact Hs|].
  cbn [Runner.while_loop].
  rewrite (restrict_loop_cond Hset Hs).
  destruct (Runner.loop_cond r' s'); [|exact Hs].
  apply IH. now apply restrict_loop_body.
Qed.

(** The loops of two runners with the same settings, whose transforms
    [init] the same way, end in the same state, up to what [keep] hides. *)
Lemma restrict_loop_exit keep r r' fixed moving :
  Trace.same_settings r r' ->
  Trace.same_messages keep r r' ->
  init (Runner.m_transform r) (Runner.fixed_ptr r fixed moving)
       (Runner.moving_ptr r fixed moving) =
  init (Runner.m_transform r') (Runner.fixed_ptr r fixed moving)
       (Runner.moving_ptr r fixed moving) ->
  Trace.restrict keep (Runner.loop_exit r fixed moving) =
  Trace.restrict keep (Runner.loop_exit r' fixed moving).
Proof.
  intros Hset Hinfo Hinit.
  destruct (same_settings_clouds fixed moving Hset) as (_ & Hf & Hm & Hs0).
  unfold Runner.loop_exit. rewrite <- Hf, <- Hm.
  destruct Hset as (Hc & Hmax & Hn & Ho & Hs & Ht) eqn:Hset'. clear Hset'.
  rewrite <- Hmax.
  apply restrict_while_loop; [repeat split; assumption|exact Hinfo|].
  unfold Runner.loop_entry, Trace.restrict. cbn.
  rewrite <- Hf, <- Hm, <- Hs0, <- Ht, <- Hn, <- Hs, Hinit.
  f_equal. rewrite !filter_app, !Hinfo.
  destruct (PrimFloat.eqb (Runner.m_sigma2 r) 0); cbn [filter];
    now rewrite Hinfo.
Qed.

Lemma filter_all (tr : list (Runner.event Matrix Vector P)) :
  filter (fun _ => true) tr = tr.
Proof. induction tr as [|e tr IH]; cbn; [|rewrite IH]; reflexivity. Qed.

Lemma restrict_all s : Trace.restrict (fun _ => true) s = s.
Proof. unfold Trace.restrict. rewrite filter_all. now destruct s. Qed.

(** With the same logger as well, the loops end in the same state. *)
Lemma loop_exit_ext r r' fixed moving :
  Trace.same_settings r r' ->
  Runner.m_logger r = Runner.m_logger r' ->
  init (Runner.m_transform r) (Runner.fixed_ptr r fixed moving)
       (Runner.moving_ptr r fixed moving) =
  init (Runner.m_transform r') (Runner.fixed_ptr r fixed moving)
       (Runner.moving_ptr r fixed moving) ->
  Runner.loop_exit r fixed moving = Runner.loop_exit r' fixed moving.
Proof.
  intros Hset Hlog Hinit.
  rewrite <- (restrict_all (Runner.loop_exit r fixed moving)),
          <- (restrict_all (Runner.loop_exit r' fixed moving)).
  apply restrict_loop_exit; [exact Hset| |exact Hinit].
  intros m. unfold Runner.info. now rewrite Hlog.
Qed.

(** No message gets past [silent]. *)
Lemma silent_messages r r' :
  Trace.same_messages
    (fun e : Runner.event Matrix Vector P => negb (Trace.is_info e)) r r'.
Proof.
  intros m. unfold Runner.info.
  destruct (Runner.m_logger r), (Runner.m_logger r'); reflexivity.
Qed.

End Compare_runs.

(** ** Counting the calls of a run *)

Section Counting.
Context {Matrix Vector T P : Type}.
Context {E : Eigen Matrix Vector} {L : cpd.Library Matrix Vector}.
Context {Tr : Transform Matrix Vector T P}.
Implicit Types r : Runner Matrix Vector T.
Implicit Types fixed moving : Matrix.
Implicit Type f : Runner.event Matrix Vector P -> bool.

Lemma count_cons f e tr :
  Runner.count f (e :: tr) = (Nat.b2n (f e) + Runner.count f tr)%nat.
Proof. unfold Runner.count. cbn. now destruct (f e). Qed.

Lemma count_nil f : Runner.count f [] = O.
Proof. reflexivity. Qed.

Lemma count_messages f r m (i : bool) :
  (forall m', f (Runner.Info m') = i) ->
  Runner.count f (Runner.info r m) = Nat.b2n (i && Runner.m_logger r).
Proof.
  intros Hi. unfold Runner.info.
  destruct (Runner.m_logger r); [rewrite count_cons, Hi|]; destruct i;
    reflexivity.
Qed.

(** The events before the loop: two messages about the clouds, the
    normalization if any, [init], and the variance with its message. *)
Lemma count_before_loop f r fixed moving (i n t d : bool) :
  (forall m, f (Runner.Info m) = i) ->
  (forall a b, f (Runner.Normalize a b) = n) ->
  (forall a b, f (Runner.Init a b) = t) ->
  (forall a b, f (Runner.Default_sigma2 a b) = d) ->
  Runner.count f (Runner.trace (Runner.loop_entry r fixed moving)) =
  (3 * Nat.b2n (i && Runner.m_logger r) +
   Nat.b2n (n && Runner.m_normalize r) + Nat.b2n t +
   Nat.b2n (d && PrimFloat.eqb (Runner.m_sigma2 r) 0))%nat.
Proof.
  intros Hi Hn Ht Hd. unfold Runner.loop_entry. cbn [Runner.trace].
  rewrite !count_app, !(count_messages f r _ Hi), count_cons, Ht, count_nil.
  destruct (Runner.m_normalize r), (PrimFloat.eqb (Runner.m_sigma2 r) 0);
    rewrite ?count_cons, ?count_nil, ?Hn, ?Hd, ?(count_messages f r _ Hi);
    destruct i, (Runner.m_logger r), n, t, d; cbn; lia.
Qed.

(** Each turn adds a comparer call, a [modify_probabilities] call, a
    message and a [compute] call. *)
Lemma count_turns f r fixed moving (i c m q : bool) :
  (forall m', f (Runner.Info m') = i) ->
  (forall a b x y, f (Runner.Compare a b x y) = c) ->
  (forall p, f (Runner.Modify_probabilities p) = m) ->
  (forall a b p x, f (Runner.Compute a b p x) = q) ->
  forall k,
  Runner.count f (Runner.trace (Runner.state_after r fixed moving k)) =
  (Runner.count f (Runner.trace (Runner.loop_entry r fixed moving)) +
   k * (Nat.b2n c + Nat.b2n m + Nat.b2n (i && Runner.m_logger r) + Nat.b2n q))%nat.
Proof.
  intros Hi Hc Hm Hq. induction k as [|k IH]; [rewrite state_after_zero; lia|].
  rewrite state_after_succ, trace_loop_body, !count_app, IH,
    (count_messages f r _ Hi), !count_cons, count_nil, Hc, Hm, Hq.
  lia.
Qed.

(** After the loop come the denormalization and the correspondence pass. *)
Lemma count_after_loop f r elapsed fixed moving (dn dc : bool) :
  (forall a b, f (Runner.Denormalize a b) = dn) ->
  (forall a b x y, f (Runner.Direct_compare a b x y) = dc) ->
  Runner.count f (Runner.events (Runner.run r elapsed fixed moving)) =
  (Runner.count f (Runner.trace (Runner.loop_exit r fixed moving)) +
   Nat.b2n (dn && Runner.m_normalize r) +
   Nat.b2n (dc && Runner.m_correspondence r))%nat.
Proof.
  intros Hdn Hdc. rewrite events_run, !count_app. unfold Runner.normalization.
  destruct (Runner.m_normalize r), (Runner.m_correspondence r);
    rewrite ?count_cons, ?count_nil, ?Hdn, ?Hdc; destruct dn, dc; cbn; lia.
Qed.

End Counting.

Section Same_run.
Context {Matrix Vector T P : Type}.
Context {E : Eigen Matrix Vector} {L : cpd.Library Matrix Vector}.
Context {Tr : Transform Matrix Vector T P}.
Implicit Types r : Runner Matrix Vector T.
Implicit Types fixed moving : Matrix.
Implicit Type keep : Runner.event Matrix Vector P -> bool.

(** Two runners with the same settings and the same correspondence flag,
    whose transforms [init] the same way, return the same result, leave the
    same transform behind, and make the same calls up to what [keep] hides. *)
Lemma restrict_run keep r r' elapsed fixed moving :
  Trace.same_settings r r' ->
  Trace.same_messages keep r r' ->
  init (Runner.m_transform r) (Runner.fixed_ptr r fixed moving)
       (Runner.moving_ptr r fixed moving) =
  init (Runner.m_transform r') (Runner.fixed_ptr r fixed moving)
       (Runner.moving_ptr r fixed moving) ->
  Runner.m_correspondence r = Runner.m_correspondence r' ->
  Runner.returned (Runner.run r elapsed fixed moving) =
    Runner.returned (Runner.run r' elapsed fixed moving) /\
  Runner.transform (Runner.loop_exit r fixed moving) =
    Runner.transform (Runner.loop_exit r' fixed moving) /\
  filter keep (Runner.events (Runner.run r elapsed fixed moving)) =
    filter keep (Runner.events (Runner.run r' elapsed fixed moving)).
Proof.
  intros Hset Hinfo Hinit Hcorr.
  pose proof (restrict_loop_exit fixed moving Hset Hinfo Hinit) as Hexit.
  destruct (same_settings_clouds fixed moving Hset) as (Hnorm & _).
  destruct Hset as (_ & _ & _ & Ho & Hs & _).
  unfold Trace.restrict in Hexit. injection Hexit as Hi _ _ Hr Ht Htr.
  assert (Hden : Runner.denormalized r fixed moving =
                 Runner.denormalized r' fixed moving)
    by (unfold Runner.denormalized; now rewrite Hnorm, Hr, Ht).
  split; [|split; [exact Ht|]].
  - unfold Runner.run. rewrite Hcorr, Hden, Hi, Hs, Ho.
    now destruct (Runner.m_correspondence r').
  - rewrite !events_run, !filter_app, Htr, Hnorm, Hr, Hden, Hcorr, Hs, Ho.
    reflexivity.
Qed.

(** X1: the logger does not take part in the registration.  Two runners
    that differ at most in whether a logger is registered return the same
    result, leave the same transform behind and make the same calls to the
    other collaborators; a runner without a logger makes no others. *)
Theorem logger_does_not_change_run r r' elapsed fixed moving :
  Trace.same_settings r r' ->
  Runner.m_correspondence r = Runner.m_correspondence r' ->
  Runner.m_transform r = Runner.m_transform r' ->
  let o := Runner.run r elapsed fixed moving in
  let o' := Runner.run r' elapsed fixed moving in
  Runner.returned o = Runner.returned o' /\
  Runner.m_transform (Runner.runner o) = Runner.m_transform (Runner.runner o') /\
  Trace.silent (Runner.events o) = Trace.silent (Runner.events o') /\
  (Runner.m_logger r = false -> Trace.silent (Runner.events o) = Runner.events o).
Proof.
  intros Hset Hcorr Htr o o'.
  assert (Hinit : init (Runner.m_transform r) (Runner.fixed_ptr r fixed moving)
                       (Runner.moving_ptr r fixed moving) =
                  init (Runner.m_transform r') (Runner.fixed_ptr r fixed moving)
                       (Runner.moving_ptr r fixed moving))
    by now rewrite Htr.
  destruct (restrict_run elapsed fixed moving Hset (silent_messages r r')
              Hinit Hcorr) as (Hret & Ht & Hev).
  split; [exact Hret|]. split; [|split; [exact Hev|]].
  - unfold o, o', Runner.run.
    destruct (Runner.m_correspondence r), (Runner.m_correspondence r');
      exact Ht.
  - intros Hlog. unfold Trace.silent. apply forallb_filter_id.
    apply forallb_forall. intros e Hin.
    apply (count_zero_In Trace.is_info) in Hin; [now rewrite Hin|].
    unfold o. destruct (loop_exit_state r fixed moving) as (n & Hn).
    rewrite count_after_loop with (dn := false) (dc := false), Hn,
      count_turns with (i := true) (c := false) (m := false) (q := false),
      count_before_loop with (i := true) (n := false) (t := false) (d := false),
      Hlog by reflexivity.
    cbn. lia.
Qed.

(** X3: asking for the correspondence changes nothing but the
    correspondence and the time measured.  With the flag set or cleared a
    runner returns the same points, variance and iteration count and leaves
    the same transform behind; the calls with the flag set are those without
    it followed by the one call to the direct comparer.  The clock is read
    after that call, so each run returns its own measure as its runtime. *)
Theorem correspondence_flag_only_adds_pass r elapsed1 elapsed0 fixed moving :
  let o1 := Runner.run (Runner.set_correspondence r true) elapsed1 fixed moving in
  let o0 := Runner.run (Runner.set_correspondence r false) elapsed0 fixed moving in
  Result.points (Runner.returned o1) = Result.points (Runner.returned o0) /\
  Result.sigma2 (Runner.returned o1) = Result.sigma2 (Runner.returned o0) /\
  Result.iterations (Runner.returned o1) = Result.iterations (Runner.returned o0) /\
  Result.params (Runner.returned o1) = Result.params (Runner.returned o0) /\
  Result.runtime (Runner.returned o1) = elapsed1 /\
  Result.runtime (Runner.returned o0) = elapsed0 /\
  Result.correspondence (Runner.returned o1) =
    Probabilities.correspondence
      (cpd.DirectComparer_compute fixed (Result.points (Runner.returned o0))
         (Runner.m_sigma2 r) (Runner.m_outliers r)) /\
  Result.correspondence (Runner.returned o0) =
    Result.correspondence
      (Runner.denormalized (Runner.set_correspondence r false) fixed moving) /\
  Runner.m_transform (Runner.runner o1) = Runner.m_transform (Runner.runner o0) /\
  Runner.events o1 =
    Runner.events o0 ++
    [Runner.Direct_compare fixed (Result.points (Runner.returned o0))
       (Runner.m_sigma2 r) (Runner.m_outliers r)].
Proof.
  intros o1 o0.
  assert (Hexit : Runner.loop_exit (Runner.set_correspondence r true) fixed moving =
                  Runner.loop_exit (Runner.set_correspondence r false) fixed moving)
    by (apply loop_exit_ext; [repeat split| |]; reflexivity).
  assert (Hden : Runner.denormalized (Runner.set_correspondence r true) fixed moving =
                 Runner.denormalized (Runner.set_correspondence r false) fixed moving)
    by (unfold Runner.denormalized; now rewrite Hexit).
  unfold o1, o0, Runner.run. rewrite Hexit, Hden. cbn.
  repeat split; reflexivity.
Qed.

(** X2: what a run sends to the logger.  With a logger registered a run
    sends three messages before the loop (the sizes of the two clouds and the
    initial variance) and one per iteration; without one it sends nothing. *)
Theorem messages_of_a_run r elapsed fixed moving :
  size_t_wf (Runner.m_max_iterations r) ->
  let o := Runner.run r elapsed fixed moving in
  Runner.count Trace.is_info (Runner.events o) =
  if Runner.m_logger r
  then (3 + N.to_nat (Result.iterations (Runner.returned o)))%nat
  else O.
Proof.
  intros Hwf o. unfold o.
  destruct (loop_exit_turns r fixed moving Hwf) as (n & Hle & Hn & _).
  rewrite iterations_run, Hn, iter_state_after
    by (unfold size_t_wf in *; lia).
  rewrite count_after_loop with (dn := false) (dc := false), Hn,
    count_turns with (i := true) (c := false) (m := false) (q := false),
    count_before_loop with (i := true) (n := false) (t := false) (d := false)
    by reflexivity.
  destruct (Runner.m_logger r); cbn; lia.
Qed.

(** X4: the calls of a run, counted.  A run calls [init] once; it calls
    [normalize] and [denormalize] once each when it normalizes and never
    otherwise; it calls [default_sigma2] once when the configured variance is
    zero and never otherwise; it calls the comparer, [modify_probabilities]
    and [compute] once per iteration, and the direct comparer once when the
    correspondence is asked for.  It makes no other call. *)
Theorem calls_of_a_run r elapsed fixed moving :
  size_t_wf (Runner.m_max_iterations r) ->
  let o := Runner.run r elapsed fixed moving in
  let n := N.to_nat (Result.iterations (Runner.returned o)) in
  let calls f := Runner.count f (Runner.events o) in
  calls Trace.is_init = 1%nat /\
  calls Trace.is_normalize = Nat.b2n (Runner.m_normalize r) /\
  calls Trace.is_denormalize = Nat.b2n (Runner.m_normalize r) /\
  calls Runner.is_default_sigma2 =
    Nat.b2n (PrimFloat.eqb (Runner.m_sigma2 r) 0) /\
  calls Runner.is_compare = n /\
  calls Runner.is_modify = n /\
  calls Runner.is_compute = n /\
  calls Runner.is_direct_compare = Nat.b2n (Runner.m_correspondence r) /\
  length (Trace.silent (Runner.events o)) =
    (1 + 2 * Nat.b2n (Runner.m_normalize r) +
     Nat.b2n (PrimFloat.eqb (Runner.m_sigma2 r) 0) + 3 * n +
     Nat.b2n (Runner.m_correspondence r))%nat.
Proof.
  intros Hwf o n calls.
  destruct (loop_exit_turns r fixed moving Hwf) as (k & Hle & Hk & _).
  assert (Hn : n = k).
  { unfold n, o. rewrite iterations_run, Hk, iter_state_after
      by (unfold size_t_wf in *; lia). lia. }
  assert (Hcalls : forall f (i nz t d c m q dn dc : bool),
    (forall m', f (Runner.Info m') = i) ->
    (forall a b, f (Runner.Normalize a b) = nz) ->
    (forall a b, f (Runner.Init a b) = t) ->
    (forall a b, f (Runner.Default_sigma2 a b) = d) ->
    (forall a b x y, f (Runner.Compare a b x y) = c) ->
    (forall p, f (Runner.Modify_probabilities p) = m) ->
    (forall a b p x, f (Runner.Compute a b p x) = q) ->
    (forall a b, f (Runner.Denormalize a b) = dn) ->
    (forall a b x y, f (Runner.Direct_compare a b x y) = dc) ->
    calls f =
    (3 * Nat.b2n (i && Runner.m_logger r) +
     Nat.b2n (nz && Runner.m_normalize r) + Nat.b2n t +
     Nat.b2n (d && PrimFloat.eqb (Runner.m_sigma2 r) 0) +
     k * (Nat.b2n c + Nat.b2n m + Nat.b2n (i && Runner.m_logger r) + Nat.b2n q) +
     Nat.b2n (dn && Runner.m_normalize r) +
     Nat.b2n (dc && Runner.m_correspondence r))%nat).
  { intros f i nz t d c m q dn dc Hi Hnz Ht Hd Hc Hm Hq Hdn Hdc.
    unfold calls, o.
    rewrite (count_after_loop f r elapsed fixed moving Hdn Hdc), Hk,
      (count_turns f r fixed moving Hi Hc Hm Hq),
      (count_before_loop f r fixed moving Hi Hnz Ht Hd).
    reflexivity. }
  rewrite Hn.
  repeat match goal with |- _ /\ _ => split end.
  1-8: erewrite Hcalls by (intros; cbn; reflexivity); cbn;
       destruct (Runner.m_normalize r), (Runner.m_correspondence r),
                (PrimFloat.eqb (Runner.m_sigma2 r) 0); cbn; lia.
  change (calls (fun e : Runner.event Matrix Vector P =>
                  negb (Trace.is_info e)) =
          (1 + 2 * Nat.b2n (Runner.m_normalize r) +
           Nat.b2n (PrimFloat.eqb (Runner.m_sigma2 r) 0) + 3 * k +
           Nat.b2n (Runner.m_correspondence r))%nat).
  erewrite Hcalls by (intros; cbn; reflexivity). cbn.
  destruct (Runner.m_normalize r), (Runner.m_correspondence r),
           (PrimFloat.eqb (Runner.m_sigma2 r) 0); cbn; lia.
Qed.

End Same_run.

(** A runner with and one without a logger. *)
Lemma logger_does_not_change_run_witness :
  Trace.same_settings Dense.runner Dense.silent_runner /\
  Runner.returned (Runner.run Dense.runner 0%Z Dense.square Dense.shifted) =
  Runner.returned (Runner.run Dense.silent_runner 0%Z Dense.square Dense.shifted).
Proof.
  assert (H : Trace.same_settings Dense.runner Dense.silent_runner)
    by (repeat split).
  split; [exact H|].
  exact (proj1 (logger_does_not_change_run 0%Z Dense.square Dense.shifted
                  H eq_refl eq_refl)).
Defined.

(** The default runner sends three messages and one per iteration. *)
Lemma messages_of_a_run_witness :
  size_t_wf (Runner.m_max_iterations Dense.runner) /\
  Runner.count Trace.is_info
    (Runner.events (Runner.run Dense.runner 0%Z Dense.square Dense.shifted)) =
  (3 + N.to_nat
         (Result.iterations
            (Runner.returned
               (Runner.run Dense.runner 0%Z Dense.square Dense.shifted))))%nat.
Proof.
  assert (H : size_t_wf (Runner.m_max_iterations Dense.runner))
    by (vm_compute; reflexivity).
  split; [exact H|].
  exact (messages_of_a_run Dense.runner 0%Z Dense.square Dense.shifted H).
Defined.

(** The default runner calls [init] once. *)
Lemma calls_of_a_run_witness :
  size_t_wf (Runner.m_max_iterations Dense.runner) /\
  Runner.count Trace.is_init
    (Runner.events (Runner.run Dense.runner 0%Z Dense.square Dense.shifted)) =
  1%nat.
Proof.
  assert (H : size_t_wf (Runner.m_max_iterations Dense.runner))
    by (vm_compute; reflexivity).
  split; [exact H|].
  exact (proj1 (calls_of_a_run Dense.runner 0%Z Dense.square Dense.shifted H)).
Defined.

(** ** Runs that never enter the loop, and why a loop ends *)

Section Edges.
Context {Matrix Vector T P : Type}.
Context {E : Eigen Matrix Vector} {L : cpd.Library Matrix Vector}.
Context {Tr : Transform Matrix Vector T P}.
Implicit Types r : Runner Matrix Vector T.
Implicit Types s : Runner.loop_state Matrix Vector T P.
Implicit Types fixed moving : Matrix.
Local Open Scope float_scope.

(** A finite or infinite double equals itself. *)
Lemma SFeqb_refl (x : spec_float) : x <> S754_nan -> SFeqb x x = true.
Proof.
  destruct x as [[]|[]| |[] m e]; intros Hx; try reflexivity;
    try (now destruct Hx); unfold SFeqb, SFcompare;
    now rewrite Z.compare_refl, Pos.compare_cont_refl.
Qed.

Lemma is_nan_spec (x : double) :
  is_nan x = true <-> Prim2SF x = S754_nan.
Proof.
  unfold is_nan. rewrite eqb_spec. split.
  - intros H. destruct (Prim2SF x) eqn:Hx; try reflexivity;
      rewrite SFeqb_refl in H by discriminate; discriminate H.
  - intros ->. reflexivity.
Qed.

(** Comparisons with a NaN fail. *)
Lemma gtb_is_nan_l (x y : double) : is_nan x = true -> gtb x y = false.
Proof.
  intros H%is_nan_spec. unfold gtb. rewrite ltb_spec, H.
  now destruct (Prim2SF y).
Qed.

Lemma gtb_is_nan_r (x y : double) : is_nan y = true -> gtb x y = false.
Proof.
  intros H%is_nan_spec. unfold gtb. now rewrite ltb_spec, H.
Qed.

(** A negative double is not zero and not above the variance floor. *)
Lemma negative_not_zero (x : double) : (x <? 0) = true -> (x =? 0) = false.
Proof.
  rewrite ltb_spec, eqb_spec. change (Prim2SF 0) with (S754_zero false).
  destruct (Prim2SF x) as [[]|[]| |[] m e]; cbn; congruence.
Qed.

Lemma negative_below_floor (x : double) :
  (x <? 0) = true -> gtb x (10 * epsilon) = false.
Proof.
  unfold gtb. rewrite !ltb_spec. change (Prim2SF 0) with (S754_zero false).
  let v := eval vm_compute in (Prim2SF (10 * epsilon)) in
  change (Prim2SF (10 * epsilon)) with v.
  destruct (Prim2SF x) as [[]|[]| |[] m e]; cbn; congruence.
Qed.

(** An absolute value is not negative, and exceeds every negative double
    unless it is NaN. *)
Lemma abs_not_negative (x : double) : (abs x <? 0) = false.
Proof.
  rewrite ltb_spec, abs_spec. change (Prim2SF 0) with (S754_zero false).
  now destruct (Prim2SF x) as [[]|[]| |[] m e].
Qed.

Lemma abs_above_negative (t x : double) :
  (t <? 0) = true -> gtb (abs x) t = negb (is_nan (abs x)).
Proof.
  unfold gtb, is_nan. rewrite eqb_spec, !ltb_spec, abs_spec.
  change (Prim2SF 0) with (S754_zero false).
  destruct (Prim2SF t) as [[]|[]| |[] m e]; cbn; try discriminate; intros _;
    destruct (Prim2SF x) as [[]|[]| |[] m' e']; try reflexivity;
    cbn [SFabs]; rewrite SFeqb_refl by discriminate; reflexivity.
Qed.

(** A loop whose test fails on entry does nothing. *)
Lemma idle_loop r fixed moving :
  Runner.loop_cond r (Runner.loop_entry r fixed moving) = false ->
  Runner.loop_exit r fixed moving = Runner.loop_entry r fixed moving.
Proof.
  intros H. unfold Runner.loop_exit.
  destruct (N.to_nat (Runner.m_max_iterations r)); cbn; [|rewrite H];
    reflexivity.
Qed.

(** The test on entry, spelled out. *)
Lemma loop_cond_entry r fixed moving :
  Runner.loop_cond r (Runner.loop_entry r fixed moving) =
  (0 <? Runner.m_max_iterations r)%N &&
  gtb (Runner.m_tolerance r + 10) (Runner.m_tolerance r) &&
  gtb (Runner.initial_sigma2 r fixed moving) (10 * epsilon).
Proof. reflexivity. Qed.

(** What an idle run returns and calls. *)
Lemma idle_run r elapsed fixed moving :
  Runner.loop_exit r fixed moving = Runner.loop_entry r fixed moving ->
  let o := Runner.run r elapsed fixed moving in
  Result.iterations (Runner.returned o) = 0%N /\
  Runner.count Runner.is_compare (Runner.events o) = O /\
  Runner.count Runner.is_modify (Runner.events o) = O /\
  Runner.count Runner.is_compute (Runner.events o) = O /\
  Runner.m_transform (Runner.runner o) =
    init (Runner.m_transform r) (Runner.fixed_ptr r fixed moving)
         (Runner.moving_ptr r fixed moving) /\
  Result.sigma2 (Runner.result (Runner.loop_exit r fixed moving)) =
    Runner.initial_sigma2 r fixed moving /\
  Result.points (Runner.result (Runner.loop_exit r fixed moving)) =
    Runner.moving_ptr r fixed moving.
Proof.
  intros Hexit o.
  assert (Hcount : forall f : Runner.event Matrix Vector P -> bool,
    (forall m, f (Runner.Info m) = false) ->
    (forall a b, f (Runner.Normalize a b) = false) ->
    (forall a b, f (Runner.Init a b) = false) ->
    (forall a b, f (Runner.Default_sigma2 a b) = false) ->
    (forall a b, f (Runner.Denormalize a b) = false) ->
    (forall a b x y, f (Runner.Direct_compare a b x y) = false) ->
    Runner.count f (Runner.events o) = O).
  { intros f Hi Hn Ht Hd Hdn Hdc. unfold o.
    rewrite (count_after_loop f r elapsed fixed moving Hdn Hdc), Hexit,
      (count_before_loop f r fixed moving Hi Hn Ht Hd).
    reflexivity. }
  split; [unfold o; now rewrite iterations_run, Hexit|].
  split; [now apply Hcount|]. split; [now apply Hcount|].
  split; [now apply Hcount|].
  split; [|now rewrite Hexit].
  unfold o, Runner.run. rewrite Hexit.
  now destruct (Runner.m_correspondence r).
Qed.

(** X6: a run returns zero iterations exactly when the loop test fails on
    entry, that is when the cap is zero, or adding ten to the tolerance does
    not make it larger, or the initial variance is not above [10 * epsilon];
    such a run calls neither the comparer nor [modify_probabilities] nor
    [compute], and leaves the transform as [init] made it. *)
Theorem zero_iterations_iff_entry_test_fails r elapsed fixed moving :
  size_t_wf (Runner.m_max_iterations r) ->
  let o := Runner.run r elapsed fixed moving in
  (Result.iterations (Runner.returned o) = 0%N <->
   (0 <? Runner.m_max_iterations r)%N &&
   gtb (Runner.m_tolerance r + 10) (Runner.m_tolerance r) &&
   gtb (Runner.initial_sigma2 r fixed moving) (10 * epsilon) = false) /\
  (Result.iterations (Runner.returned o) = 0%N ->
   Runner.count Runner.is_compare (Runner.events o) = O /\
   Runner.count Runner.is_modify (Runner.events o) = O /\
   Runner.count Runner.is_compute (Runner.events o) = O /\
   Runner.m_transform (Runner.runner o) =
     init (Runner.m_transform r) (Runner.fixed_ptr r fixed moving)
          (Runner.moving_ptr r fixed moving)).
Proof.
  intros Hwf o.
  destruct (loop_exit_turns r fixed moving Hwf) as (n & Hle & Hn & _ & Hex).
  assert (Hit : Result.iterations (Runner.returned o) = N.of_nat n).
  { unfold o. rewrite iterations_run, Hn. apply iter_state_after.
    unfold size_t_wf in *. lia. }
  assert (Hidle : Result.iterations (Runner.returned o) = 0%N ->
                  Runner.loop_exit r fixed moving = Runner.loop_entry r fixed moving).
  { rewrite Hit. intros H0. assert (n = O) by lia. subst n. exact Hn. }
  split; [split|].
  - rewrite Hit. intros H0. assert (n = O) by lia. subst n.
    rewrite <- loop_cond_entry. exact Hex.
  - rewrite <- loop_cond_entry. intros Hc.
    apply (idle_run elapsed (idle_loop r fixed moving Hc)).
  - intros H0.
    destruct (idle_run elapsed (Hidle H0))
      as (_ & Hc & Hm & Hq & Ht & _).
    auto.
Qed.

(** X7: a configured variance that is negative or NaN is neither replaced
    by the default nor rejected: it is the variance the loop starts from, the
    loop test fails on it at once, and the run returns after zero iterations
    without a call to [default_sigma2], the comparer or [compute]. *)
Theorem unusable_sigma2_idles r elapsed fixed moving :
  (Runner.m_sigma2 r <? 0) = true \/ is_nan (Runner.m_sigma2 r) = true ->
  let o := Runner.run r elapsed fixed moving in
  Runner.initial_sigma2 r fixed moving = Runner.m_sigma2 r /\
  Result.sigma2 (Runner.result (Runner.loop_exit r fixed moving)) =
    Runner.m_sigma2 r /\
  Result.iterations (Runner.returned o) = 0%N /\
  Runner.count Runner.is_default_sigma2 (Runner.events o) = O /\
  Runner.count Runner.is_compare (Runner.events o) = O /\
  Runner.count Runner.is_compute (Runner.events o) = O.
Proof.
  intros Hbad o.
  assert (Hnz : (Runner.m_sigma2 r =? 0) = false).
  { destruct Hbad as [Hneg|Hnan]; [now apply negative_not_zero|].
    apply is_nan_spec in Hnan. now rewrite eqb_spec, Hnan. }
  assert (Hinit : Runner.initial_sigma2 r fixed moving = Runner.m_sigma2 r)
    by (unfold Runner.initial_sigma2; now rewrite Hnz).
  assert (Hc : Runner.loop_cond r (Runner.loop_entry r fixed moving) = false).
  { rewrite loop_cond_entry, Hinit.
    destruct Hbad as [Hneg|Hnan];
      [rewrite negative_below_floor by exact Hneg
      |rewrite (@gtb_is_nan_l (Runner.m_sigma2 r) (10 * epsilon) Hnan)];
      apply andb_false_r. }
  pose proof (idle_loop r fixed moving Hc) as Hexit.
  destruct (idle_run elapsed Hexit)
    as (Hit & Hcmp & _ & Hq & _ & Hs & _).
  split; [exact Hinit|]. split; [now rewrite Hs|]. split; [exact Hit|].
  split; [|split; [exact Hcmp|exact Hq]].
  unfold o.
  rewrite count_after_loop with (dn := false) (dc := false), Hexit,
    count_before_loop with (i := false) (n := false) (t := false) (d := true),
    Hnz by reflexivity.
  destruct (Runner.m_logger r), (Runner.m_normalize r),
           (Runner.m_correspondence r); reflexivity.
Qed.

(** The points an idle run returns. *)
Lemma idle_run_points r elapsed fixed moving :
  Runner.loop_exit r fixed moving = Runner.loop_entry r fixed moving ->
  Result.points (Runner.returned (Runner.run r elapsed fixed moving)) =
  match Runner.normalization r fixed moving with
  | Some n =>
      Result.points
        (denormalize
           (init (Runner.m_transform r) (Normalization.fixed n)
                 (Normalization.moving n))
           n (Runner.result (Runner.loop_entry r fixed moving)))
  | None => moving
  end.
Proof.
  intros Hexit. rewrite points_run. unfold Runner.denormalized.
  rewrite Hexit. unfold Runner.loop_entry.
  cbn [Runner.transform Runner.result].
  unfold Runner.moving_ptr, Runner.fixed_ptr.
  destruct (Runner.normalization r fixed moving); reflexivity.
Qed.

(** X8: with a NaN tolerance the loop never runs, whatever the clouds: the
    test [ntol > m_tolerance] is false from the start.  The run makes zero
    iterations and no comparer or [compute] call; the loop is left with the
    moving cloud it was given as its points, and the run returns the caller's
    moving cloud when it does not normalize, and what the transform's
    [denormalize] makes of the normalized moving cloud when it does. *)
Theorem nan_tolerance_idles r elapsed fixed moving :
  is_nan (Runner.m_tolerance r) = true ->
  let o := Runner.run r elapsed fixed moving in
  Result.iterations (Runner.returned o) = 0%N /\
  Runner.count Runner.is_compare (Runner.events o) = O /\
  Runner.count Runner.is_compute (Runner.events o) = O /\
  Result.points (Runner.result (Runner.loop_exit r fixed moving)) =
    Runner.moving_ptr r fixed moving /\
  Result.points (Runner.returned o) =
    match Runner.normalization r fixed moving with
    | Some n =>
        Result.points
          (denormalize
             (init (Runner.m_transform r) (Normalization.fixed n)
                   (Normalization.moving n))
             n (Runner.result (Runner.loop_entry r fixed moving)))
    | None => moving
    end /\
  Result.points (Runner.result (Runner.loop_entry r fixed moving)) =
    Runner.moving_ptr r fixed moving.
Proof.
  intros Hnan o.
  assert (Hc : Runner.loop_cond r (Runner.loop_entry r fixed moving) = false).
  { rewrite loop_cond_entry,
      (@gtb_is_nan_r (Runner.m_tolerance r + 10) (Runner.m_tolerance r) Hnan),
      andb_false_r.
    reflexivity. }
  pose proof (idle_loop r fixed moving Hc) as Hexit.
  destruct (idle_run elapsed Hexit) as (Hit & Hcmp & _ & Hq & _ & _ & Hp).
  split; [exact Hit|]. split; [exact Hcmp|]. split; [exact Hq|].
  split; [exact Hp|]. split; [|reflexivity].
  now apply idle_run_points.
Qed.

(** X9: a negative tolerance is not met once an iteration has run.  After
    any turn of the body the metric is an absolute value, so it is not
    negative and exceeds a negative tolerance unless it is NaN; the loop test
    after a turn is then the cap, the metric not being NaN, and the variance
    floor.  So a run with a negative tolerance that made at least one
    iteration and fewer than the cap ended on a NaN metric or at the variance
    floor. *)
Theorem negative_tolerance_after_a_turn r elapsed fixed moving s :
  (Runner.m_tolerance r <? 0) = true ->
  let s' := Runner.loop_body r fixed moving s in
  let o := Runner.run r elapsed fixed moving in
  let exit := Runner.loop_exit r fixed moving in
  (Runner.ntol s' <? 0) = false /\
  gtb (Runner.ntol s') (Runner.m_tolerance r) = negb (is_nan (Runner.ntol s')) /\
  Runner.loop_cond r s' =
    (Runner.iter s' <? Runner.m_max_iterations r)%N &&
    negb (is_nan (Runner.ntol s')) &&
    gtb (Result.sigma2 (Runner.result s')) (10 * epsilon) /\
  (size_t_wf (Runner.m_max_iterations r) ->
   Result.iterations (Runner.returned o) <> 0%N ->
   (Result.iterations (Runner.returned o) < Runner.m_max_iterations r)%N ->
   is_nan (Runner.ntol exit) = true \/
   gtb (Result.sigma2 (Runner.result exit)) (10 * epsilon) = false).
Proof.
  intros Hneg s' o exit.
  assert (Hturn : forall s0 f m,
    gtb (Runner.ntol (Runner.loop_body r f m s0)) (Runner.m_tolerance r) =
    negb (is_nan (Runner.ntol (Runner.loop_body r f m s0)))).
  { intros s0 f m. rewrite ntol_loop_body. now apply abs_above_negative. }
  split; [unfold s'; rewrite ntol_loop_body; apply abs_not_negative|].
  split; [apply Hturn|]. split.
  - unfold Runner.loop_cond, s'. now rewrite Hturn.
  - intros Hwf Hit Hlt. unfold o in *. rewrite iterations_run in Hit, Hlt.
    destruct (loop_exit_turns r fixed moving Hwf) as (n & _ & Hn & _ & Hex).
    unfold exit. rewrite Hn in *. destruct n as [|n]; [now destruct Hit|].
    unfold Runner.loop_cond in Hex. apply N.ltb_lt in Hlt.
    rewrite Hlt, andb_true_l in Hex. rewrite state_after_succ in Hex |- *.
    rewrite Hturn in Hex. apply andb_false_iff in Hex as [Hex|Hex]; [left|now right].
    now apply negb_false_iff in Hex.
Qed.

(** X10: why a loop ended.  When a run returns fewer iterations than the
    cap, the loop ended on its tolerance test or on its variance test: at the
    exit the metric is not above the tolerance or the variance is not above
    [10 * epsilon].  When the metric and the variance would both let the loop
    go on, the run has used all its iterations. *)
Theorem early_exit_reason r elapsed fixed moving :
  size_t_wf (Runner.m_max_iterations r) ->
  let o := Runner.run r elapsed fixed moving in
  let s := Runner.loop_exit r fixed moving in
  Runner.loop_cond r s = false /\
  ((Result.iterations (Runner.returned o) < Runner.m_max_iterations r)%N ->
   gtb (Runner.ntol s) (Runner.m_tolerance r) = false \/
   gtb (Result.sigma2 (Runner.result s)) (10 * epsilon) = false) /\
  (gtb (Runner.ntol s) (Runner.m_tolerance r) = true ->
   gtb (Result.sigma2 (Runner.result s)) (10 * epsilon) = true ->
   Result.iterations (Runner.returned o) = Runner.m_max_iterations r).
Proof.
  intros Hwf o s.
  destruct (loop_exit_turns r fixed moving Hwf) as (n & Hle & Hn & _ & Hex).
  assert (Hc : Runner.loop_cond r s = false) by (unfold s; now rewrite Hn).
  assert (Hit : Result.iterations (Runner.returned o) = Runner.iter s)
    by apply iterations_run.
  assert (Hiter : (Runner.iter s <= Runner.m_max_iterations r)%N).
  { unfold s. rewrite Hn, iter_state_after; [exact Hle|].
    unfold size_t_wf in *. lia. }
  split; [exact Hc|]. unfold Runner.loop_cond in Hc. rewrite Hit. split.
  - intros Hlt. apply N.ltb_lt in Hlt. rewrite Hlt in Hc. cbn in Hc.
    now apply andb_false_iff in Hc.
  - intros H1 H2. rewrite H1, H2, !andb_true_r in Hc.
    apply N.ltb_ge in Hc. lia.
Qed.

(** The trace after [k] turns: the events before the loop, then those of
    each turn. *)
Lemma trace_state_after r fixed moving k :
  Runner.trace (Runner.state_after r fixed moving k) =
  Runner.trace (Runner.loop_entry r fixed moving) ++
  flat_map
    (fun j => Trace.turn r (Runner.fixed_ptr r fixed moving)
                (Runner.moving_ptr r fixed moving)
                (Runner.state_after r fixed moving j))
    (seq 0 k).
Proof.
  induction k as [|k IH]; [cbn; now rewrite app_nil_r|].
  rewrite state_after_succ, trace_loop_body, IH, seq_S, flat_map_app.
  cbn [flat_map]. rewrite app_nil_r, <- app_assoc. reflexivity.
Qed.

(** X5: the calls of a run, in order.  A run makes the calls that precede
    the loop, then for each iteration [j], in this order, a comparer call on
    the current points and variance, [modify_probabilities], a message when a
    logger is registered, and [compute] on the clouds the loop started from;
    then [denormalize] when it normalizes and the direct comparer when the
    correspondence is asked for.  The points and variance an iteration
    compares are those the previous iteration's [compute] returned. *)
Theorem run_trace r elapsed fixed moving :
  size_t_wf (Runner.m_max_iterations r) ->
  let o := Runner.run r elapsed fixed moving in
  let fixed_ptr := Runner.fixed_ptr r fixed moving in
  let moving_ptr := Runner.moving_ptr r fixed moving in
  let state := Runner.state_after r fixed moving in
  Runner.events o =
    Runner.trace (Runner.loop_entry r fixed moving) ++
    flat_map (fun j => Trace.turn r fixed_ptr moving_ptr (state j))
      (seq 0 (N.to_nat (Result.iterations (Runner.returned o)))) ++
    match Runner.normalization r fixed moving with
    | Some n =>
        [Runner.Denormalize n (Runner.result (Runner.loop_exit r fixed moving))]
    | None => []
    end ++
    (if Runner.m_correspondence r
     then [Runner.Direct_compare fixed (Result.points (Runner.returned o))
             (Runner.m_sigma2 r) (Runner.m_outliers r)]
     else []) /\
  Result.points (Runner.result (state O)) = moving_ptr /\
  Result.sigma2 (Runner.result (state O)) = Runner.initial_sigma2 r fixed moving /\
  forall j,
    Runner.result (state (S j)) =
    fst (compute (Runner.transform (state j)) fixed_ptr moving_ptr
           (Runner.estep r fixed_ptr (state j))
           (Result.sigma2 (Runner.result (state j)))).
Proof.
  intros Hwf o fixed_ptr moving_ptr state.
  destruct (loop_exit_turns r fixed moving Hwf) as (n & Hle & Hn & _).
  assert (Hit : N.to_nat (Result.iterations (Runner.returned o)) = n).
  { unfold o. rewrite iterations_run, Hn, iter_state_after
      by (unfold size_t_wf in *; lia). lia. }
  split; [|split; [reflexivity|split; [reflexivity|]]].
  - rewrite Hit. unfold o, state, fixed_ptr, moving_ptr.
    rewrite events_run, points_run,
      (app_assoc (Runner.trace (Runner.loop_entry r fixed moving))),
      <- trace_state_after, <- Hn.
    reflexivity.
  - intros j. unfold state. now rewrite state_after_succ, result_loop_body.
Qed.

End Edges.

(** The default runner: its calls in order. *)
Lemma run_trace_witness :
  size_t_wf (Runner.m_max_iterations Dense.runner) /\
  Result.sigma2 (Runner.result (Runner.state_after Dense.runner Dense.square
                                  Dense.shifted 0)) =
  Runner.initial_sigma2 Dense.runner Dense.square Dense.shifted.
Proof.
  assert (H : size_t_wf (Runner.m_max_iterations Dense.runner))
    by (vm_compute; reflexivity).
  split; [exact H|].
  exact (proj1 (proj2 (proj2
    (run_trace Dense.runner 0%Z Dense.square Dense.shifted H)))).
Defined.

(** A tolerance of 1e300 absorbs the ten added to it: no iteration. *)
Lemma zero_iterations_iff_entry_test_fails_witness :
  size_t_wf (Runner.m_max_iterations Dense.huge_tolerance_runner) /\
  Result.iterations
    (Runner.returned
       (Runner.run Dense.huge_tolerance_runner 0%Z Dense.square Dense.shifted))
  = 0%N.
Proof.
  assert (H : size_t_wf (Runner.m_max_iterations Dense.huge_tolerance_runner))
    by (vm_compute; reflexivity).
  split; [exact H|].
  apply (zero_iterations_iff_entry_test_fails Dense.huge_tolerance_runner 0%Z
           Dense.square Dense.shifted H).
  vm_compute. reflexivity.
Defined.

(** An initial variance of -1. *)
Lemma unusable_sigma2_idles_witness :
  PrimFloat.ltb (Runner.m_sigma2 Dense.negative_sigma2_runner) 0 = true /\
  Result.iterations
    (Runner.returned
       (Runner.run Dense.negative_sigma2_runner 0%Z Dense.square Dense.shifted))
  = 0%N.
Proof.
  assert (H : PrimFloat.ltb (Runner.m_sigma2 Dense.negative_sigma2_runner) 0
              = true) by reflexivity.
  split; [exact H|].
  exact (proj1 (proj2 (proj2
    (unusable_sigma2_idles Dense.negative_sigma2_runner 0%Z Dense.square
       Dense.shifted (or_introl H))))).
Defined.

(** A NaN tolerance. *)
Lemma nan_tolerance_idles_witness :
  is_nan (Runner.m_tolerance Dense.nan_tolerance_runner) = true /\
  Result.iterations
    (Runner.returned
       (Runner.run Dense.nan_tolerance_runner 0%Z Dense.square Dense.shifted))
  = 0%N.
Proof.
  assert (H : is_nan (Runner.m_tolerance Dense.nan_tolerance_runner) = true)
    by reflexivity.
  split; [exact H|].
  exact (proj1 (nan_tolerance_idles Dense.nan_tolerance_runner 0%Z Dense.square
                  Dense.shifted H)).
Defined.

(** A tolerance of -1: the metric of the first turn is above it. *)
Lemma negative_tolerance_after_a_turn_witness :
  let r := Dense.out_of_range_runner in
  let s := Runner.loop_entry r Dense.square Dense.shifted in
  PrimFloat.ltb (Runner.m_tolerance r) 0 = true /\
  gtb (Runner.ntol
         (Runner.loop_body r (Runner.fixed_ptr r Dense.square Dense.shifted)
            (Runner.moving_ptr r Dense.square Dense.shifted) s))
      (Runner.m_tolerance r) = true.
Proof.
  cbv zeta.
  assert (H : PrimFloat.ltb (Runner.m_tolerance Dense.out_of_range_runner) 0
              = true) by reflexivity.
  split; [exact H|].
  rewrite (proj1 (proj2 (negative_tolerance_after_a_turn
    Dense.out_of_range_runner 0%Z
    (Runner.fixed_ptr Dense.out_of_range_runner Dense.square Dense.shifted)
    (Runner.moving_ptr Dense.out_of_range_runner Dense.square Dense.shifted)
    (Runner.loop_entry Dense.out_of_range_runner Dense.square Dense.shifted) H))).
  vm_compute. reflexivity.
Defined.

(** The default runner ends its loop through the test. *)
Lemma early_exit_reason_witness :
  size_t_wf (Runner.m_max_iterations Dense.runner) /\
  Runner.loop_cond Dense.runner
    (Runner.loop_exit Dense.runner Dense.square Dense.shifted) = false.
Proof.
  assert (H : size_t_wf (Runner.m_max_iterations Dense.runner))
    by (vm_compute; reflexivity).
  split; [exact H|].
  exact (proj1 (early_exit_reason Dense.runner 0%Z Dense.square Dense.shifted H)).
Defined.

(** ** More on nonrigid runs *)

Section Nonrigid_runs.
Context {Matrix Vector : Type}.
Context {E : Eigen Matrix Vector} {L : cpd.Library Matrix Vector}.
Context (DEFAULT_BETA DEFAULT_LAMBDA : double).
Let Tr : Transform Matrix Vector (Nonrigid.t Matrix) unit :=
  Nonrigid_Transform DEFAULT_BETA DEFAULT_LAMBDA.
Local Existing Instance Tr.
Implicit Type r : Runner Matrix Vector (Nonrigid.t Matrix).
Implicit Types fixed moving : Matrix.
Local Open Scope float_scope.

Lemma runner_run r elapsed fixed moving :
  Runner.runner (Runner.run r elapsed fixed moving) =
  Runner.set_transform r (Runner.transform (Runner.loop_exit r fixed moving)).
Proof. unfold Runner.run. now destruct (Runner.m_correspondence r). Qed.

Lemma runtime_run r elapsed fixed moving :
  Result.runtime (Runner.returned (Runner.run r elapsed fixed moving)) = elapsed.
Proof. unfold Runner.run. now destruct (Runner.m_correspondence r). Qed.

Lemma outcome_eta (o : Runner.outcome Matrix Vector (Nonrigid.t Matrix) unit) :
  o = Runner.Outcome (Runner.returned o) (Runner.runner o) (Runner.events o).
Proof. now destruct o. Qed.

(** All along a run the transform keeps the [m_beta] and [m_lambda] it was
    given. *)
Lemma nonrigid_loop_exit_weights r fixed moving :
  let t := Runner.transform (Runner.loop_exit r fixed moving) in
  Nonrigid.m_beta t = Nonrigid.m_beta (Runner.m_transform r) /\
  Nonrigid.m_lambda t = Nonrigid.m_lambda (Runner.m_transform r).
Proof.
  destruct (loop_exit_state r fixed moving) as (n & ->).
  destruct (nonrigid_state_after DEFAULT_BETA DEFAULT_LAMBDA r fixed moving n)
    as (_ & Hb & Hl).
  now split.
Qed.

(** X11: a nonrigid runner can be used again.  A run changes nothing of the
    runner's configuration, and what it leaves in the transform does not
    reach the next run: on any clouds, the runner a run leaves behind returns
    the same result, makes the same calls and is left in the same state as
    the runner before that run. *)
Theorem nonrigid_runner_reusable r elapsed fixed moving elapsed' fixed' moving' :
  let r' := Runner.runner (Runner.run r elapsed fixed moving) in
  Trace.same_settings r' r /\
  Runner.m_correspondence r' = Runner.m_correspondence r /\
  Runner.m_logger r' = Runner.m_logger r /\
  Runner.run r' elapsed' fixed' moving' = Runner.run r elapsed' fixed' moving'.
Proof.
  intros r'.
  assert (Hr' : r' = Runner.set_transform r
                       (Runner.transform (Runner.loop_exit r fixed moving)))
    by apply runner_run.
  assert (Hset : Trace.same_settings r' r) by (rewrite Hr'; repeat split).
  assert (Hcorr : Runner.m_correspondence r' = Runner.m_correspondence r)
    by now rewrite Hr'.
  assert (Hlog : Runner.m_logger r' = Runner.m_logger r) by now rewrite Hr'.
  split; [exact Hset|]. split; [exact Hcorr|]. split; [exact Hlog|].
  assert (Hinit : forall a b,
            init (Runner.m_transform r') a b = init (Runner.m_transform r) a b).
  { intros a b. rewrite Hr'. cbn.
    destruct (nonrigid_loop_exit_weights r fixed moving) as (Hb & Hl).
    unfold Nonrigid.init. now rewrite Hb, Hl. }
  assert (Hmsg : Trace.same_messages
                   (fun _ : Runner.event Matrix Vector unit => true) r' r)
    by (intros m; unfold Runner.info; now rewrite Hlog).
  destruct (restrict_run elapsed' fixed' moving' Hset Hmsg (Hinit _ _) Hcorr)
    as (Hret & Ht & Hev).
  rewrite !filter_all in Hev.
  rewrite (outcome_eta (Runner.run r' elapsed' fixed' moving')),
          (outcome_eta (Runner.run r elapsed' fixed' moving')),
          Hret, Hev, !runner_run, Ht, Hr'.
  reflexivity.
Qed.

(** X12: the variance of a nonrigid run is never negative once the loop has
    run.  [compute] returns an absolute value, so after every turn the
    variance is not below zero, and so is the returned variance of a run that
    made at least one iteration. *)
Theorem nonrigid_variance_not_negative r elapsed fixed moving :
  let o := Runner.run r elapsed fixed moving in
  (forall k,
     (Result.sigma2 (Runner.result (Runner.state_after r fixed moving (S k)))
      <? 0) = false) /\
  (Result.iterations (Runner.returned o) <> 0%N ->
   (Result.sigma2 (Runner.returned o) <? 0) = false).
Proof.
  intros o.
  assert (Hturn : forall k,
    (Result.sigma2 (Runner.result (Runner.state_after r fixed moving (S k)))
     <? 0) = false).
  { intros k. rewrite state_after_succ, result_loop_body. cbn.
    unfold Nonrigid.residual_sigma2. apply abs_not_negative. }
  split; [exact Hturn|].
  intros Hit. unfold o in *.
  rewrite iterations_run in Hit. rewrite sigma2_run.
  unfold Runner.denormalized.
  destruct (loop_exit_state r fixed moving) as ([|k] & Hk);
    rewrite Hk in *; [now destruct Hit|].
  destruct (Runner.normalization r fixed moving); apply Hturn.
Qed.

(** X13: what denormalization does to a nonrigid result.  When the runner
    normalizes, the returned points are the points of the last iteration
    times the normalization's scale, plus the mean of the fixed cloud on every
    row; the returned variance is the one of the last iteration, unscaled, and
    the transform keeps the kernel and weights of the normalized clouds.
    Without normalization the loop's points are returned as they are. *)
Theorem nonrigid_denormalization r elapsed fixed moving :
  let o := Runner.run r elapsed fixed moving in
  let s := Runner.loop_exit r fixed moving in
  let points := Result.points (Runner.result s) in
  Result.points (Runner.returned o) =
    (if Runner.m_normalize r
     then let n := cpd.normalize fixed moving in
          (smul (Normalization.scale n) points +
           replicate_rows (Normalization.fixed_mean n) (rows points))%M
     else points) /\
  Result.sigma2 (Runner.returned o) = Result.sigma2 (Runner.result s) /\
  Runner.m_transform (Runner.runner o) = Runner.transform s /\
  Nonrigid.m_g (Runner.transform s) =
    cpd.affinity (Runner.moving_ptr r fixed moving)
      (Runner.moving_ptr r fixed moving)
      (Nonrigid.m_beta (Runner.m_transform r)).
Proof.
  intros o s points. unfold o.
  rewrite points_run, sigma2_run, runner_run.
  unfold Runner.denormalized, Runner.normalization. fold s.
  split; [|split; [|split]].
  - now destruct (Runner.m_normalize r).
  - now destruct (Runner.m_normalize r).
  - reflexivity.
  - unfold s. destruct (loop_exit_state r fixed moving) as (n & ->).
    apply (nonrigid_state_after DEFAULT_BETA DEFAULT_LAMBDA r fixed moving n).
Qed.

(** X14: [cpd::nonrigid(fixed, moving)], the registration with a default
    runner.  It makes at most 150 iterations, returns no correspondence and
    the measured runtime, returns points mapped back from the normalized
    clouds, and returns the same result whether or not a logger is
    registered. *)
Theorem cpd_nonrigid_result (logger : bool) elapsed fixed moving :
  let result := cpd_nonrigid DEFAULT_BETA DEFAULT_LAMBDA logger elapsed fixed moving in
  let r : Runner Matrix Vector (Nonrigid.t Matrix) := Runner.create_default logger in
  let points := Result.points (Runner.result (Runner.loop_exit r fixed moving)) in
  let n := cpd.normalize fixed moving in
  (Result.iterations result <= 150)%N /\
  Result.correspondence result = [] /\
  Result.runtime result = elapsed /\
  Result.points result =
    (smul (Normalization.scale n) points +
     replicate_rows (Normalization.fixed_mean n) (rows points))%M /\
  Runner.count Runner.is_direct_compare
    (Runner.events (Runner.run r elapsed fixed moving)) = O /\
  result = cpd_nonrigid DEFAULT_BETA DEFAULT_LAMBDA (negb logger) elapsed fixed moving.
Proof.
  intros result r points n. unfold result, cpd_nonrigid, cpd_run. cbv zeta.
  change (Nonrigid_Transform DEFAULT_BETA DEFAULT_LAMBDA) with Tr. fold r.
  assert (Hwf : size_t_wf (Runner.m_max_iterations r)) by reflexivity.
  destruct (loop_exit_turns r fixed moving Hwf) as (k & Hle & Hk & _).
  split; [|split; [|split; [|split; [|split]]]].
  - rewrite iterations_run, Hk, iter_state_after; [exact Hle|].
    unfold size_t_wf in *. cbn in *. lia.
  - rewrite correspondence_run.
    change (Runner.m_correspondence r) with false. cbv iota.
    apply correspondence_denormalized, nonrigid_correspondence_free.
  - apply runtime_run.
  - rewrite points_run. reflexivity.
  - now rewrite count_direct_compare_run.
  - assert (Hset : Trace.same_settings r
              (Runner.create_default (negb logger))) by (repeat split).
    exact (proj1 (restrict_run elapsed fixed moving Hset
                    (silent_messages _ _) eq_refl eq_refl)).
Qed.

End Nonrigid_runs.

(** The default runner made at least one iteration. *)
Lemma nonrigid_variance_not_negative_witness :
  let o := Runner.run Dense.runner 0%Z Dense.square Dense.shifted in
  Result.iterations (Runner.returned o) <> 0%N /\
  PrimFloat.ltb (Result.sigma2 (Runner.returned o)) 0 = false.
Proof.
  cbv zeta.
  assert (H : Result.iterations
                (Runner.returned
                   (Runner.run Dense.runner 0%Z Dense.square Dense.shifted))
              <> 0%N) by (vm_compute; discriminate).
  split; [exact H|].
  exact (proj2 (nonrigid_variance_not_negative 3%float 3%float Dense.runner 0%Z
                  Dense.square Dense.shifted) H).
Defined.

(** ** The cap, and the example program *)

Section Cap.
Context {Matrix Vector T P : Type}.
Context {E : Eigen Matrix Vector} {L : cpd.Library Matrix Vector}.
Context {Tr : Transform Matrix Vector T P}.
Implicit Types r : Runner Matrix Vector T.
Implicit Type s : Runner.loop_state Matrix Vector T P.
Implicit Types fixed moving : Matrix.
Local Open Scope float_scope.

(** The states of the loop do not depend on the cap. *)
Lemma state_after_cap r (m : size_t) fixed moving k :
  Runner.state_after (Runner.set_max_iterations r m) fixed moving k =
  Runner.state_after r fixed moving k.
Proof.
  induction k as [|k IH]; [reflexivity|].
  rewrite !state_after_succ, IH. reflexivity.
Qed.

(** X15: lowering the cap cuts the same sequence of iterations short.  With
    a cap [m] below the configured one, a run makes [min m n] iterations,
    where [n] is the number the runner makes with its own cap, and its loop
    ends in the state the other run was in after that many iterations; when
    [n] is at most [m] both runs return the same result. *)
Theorem lower_cap_truncates r (m : size_t) elapsed fixed moving :
  size_t_wf (Runner.m_max_iterations r) ->
  (m <= Runner.m_max_iterations r)%N ->
  let o := Runner.run r elapsed fixed moving in
  let o' := Runner.run (Runner.set_max_iterations r m) elapsed fixed moving in
  let n := Result.iterations (Runner.returned o) in
  Result.iterations (Runner.returned o') = N.min m n /\
  Runner.loop_exit (Runner.set_max_iterations r m) fixed moving =
    Runner.state_after r fixed moving (N.to_nat (N.min m n)) /\
  ((n <= m)%N -> Runner.returned o' = Runner.returned o).
Proof.
  intros Hwf Hm o o' n.
  destruct (loop_exit_turns r fixed moving Hwf) as (k & Hle & Hk & Hlt & Hex).
  assert (Hn : n = N.of_nat k).
  { unfold n, o. rewrite iterations_run, Hk. apply iter_state_after.
    unfold size_t_wf in *. lia. }
  set (r' := Runner.set_max_iterations r m).
  set (j := N.to_nat (N.min m n)).
  assert (Hiter : forall i, (i <= k)%nat ->
            Runner.iter (Runner.state_after r fixed moving i) = N.of_nat i)
    by (intros i Hi; apply iter_state_after; unfold size_t_wf in *; lia).
  assert (Hcond : forall s,
            Runner.loop_cond r' s =
            (Runner.iter s <? m)%N &&
            (gtb (Runner.ntol s) (Runner.m_tolerance r) &&
             gtb (Result.sigma2 (Runner.result s)) (10 * epsilon)))
    by (intros s; unfold Runner.loop_cond; cbn; now rewrite andb_assoc).
  assert (Hrest : forall i, (i < k)%nat ->
            gtb (Runner.ntol (Runner.state_after r fixed moving i))
                (Runner.m_tolerance r) &&
            gtb (Result.sigma2 (Runner.result (Runner.state_after r fixed moving i)))
                (10 * epsilon) = true).
  { intros i Hi. specialize (Hlt i Hi). unfold Runner.loop_cond in Hlt.
    rewrite <- andb_assoc in Hlt. now apply andb_prop in Hlt. }
  assert (Hexit : Runner.loop_exit r' fixed moving =
                  Runner.state_after r fixed moving j).
  { rewrite <- (state_after_cap r m). unfold Runner.loop_exit.
    apply while_loop_fuel.
    - intros i Hi. rewrite state_after_cap, Hcond, Hiter, Hrest by lia.
      rewrite andb_true_r. apply N.ltb_lt. lia.
    - rewrite state_after_cap, Hcond, Hiter by lia.
      destruct (N.le_gt_cases m n) as [Hmn|Hmn].
      + replace (N.of_nat j) with m by lia. now rewrite N.ltb_irrefl.
      + assert (j = k) by lia. subst j. rewrite H.
        unfold Runner.loop_cond in Hex. rewrite Hiter in Hex by lia.
        rewrite <- andb_assoc in Hex.
        replace (N.of_nat k <? Runner.m_max_iterations r)%N with true in Hex
          by (symmetry; apply N.ltb_lt; lia).
        rewrite andb_true_l in Hex. rewrite Hex. apply andb_false_r.
    - cbn. lia. }
  split; [|split; [exact Hexit|]].
  - unfold o'. fold r'. rewrite iterations_run, Hexit, Hiter by lia. lia.
  - intros Hnm. assert (Hj : j = k) by lia.
    assert (Hsame : Runner.loop_exit r' fixed moving =
                    Runner.loop_exit r fixed moving)
      by now rewrite Hexit, Hj, Hk.
    unfold o', o. fold r'. unfold Runner.run, Runner.denormalized.
    rewrite Hsame.
    change (Runner.m_correspondence r') with (Runner.m_correspondence r).
    destruct (Runner.m_correspondence r); reflexivity.
Qed.

(** X16: the registration of the example program.  Whatever the variance
    and comparer given on the command line, the program normalizes the
    clouds, makes at most 150 iterations, logs three messages and one per
    iteration, never calls the direct comparer, and starts from the data-driven
    variance exactly when the variance given is zero, as its default is. *)
Theorem example_registration_run
  (sigma2 : double) (comparer : Comparer Matrix Vector) elapsed fixed moving :
  let o := example_registration sigma2 comparer elapsed fixed moving in
  let n := cpd.normalize fixed moving in
  let iterations := Result.iterations (Runner.returned o) in
  (iterations <= 150)%N /\
  Runner.count Trace.is_normalize (Runner.events o) = 1%nat /\
  Runner.count Trace.is_denormalize (Runner.events o) = 1%nat /\
  Runner.count Trace.is_info (Runner.events o) = (3 + N.to_nat iterations)%nat /\
  Runner.count Runner.is_direct_compare (Runner.events o) = O /\
  Runner.count Runner.is_default_sigma2 (Runner.events o) =
    Nat.b2n (sigma2 =? 0) /\
  (forall f p x w, In (Runner.Compare f p x w) (Runner.events o) ->
                   w = DEFAULT_OUTLIERS) /\
  (forall f m p x, In (Runner.Compute f m p x) (Runner.events o) ->
                   f = Normalization.fixed n /\ m = Normalization.moving n).
Proof.
  intros o n iterations. unfold iterations, o, example_registration. cbv zeta.
  set (r := Runner.set_comparer
              (Runner.set_sigma2 (Runner.create true Transform_default) sigma2)
              comparer).
  assert (Hwf : size_t_wf (Runner.m_max_iterations r)) by reflexivity.
  destruct (loop_exit_turns r fixed moving Hwf) as (k & Hle & Hk & _).
  assert (Hit : Result.iterations (Runner.returned (Runner.run r elapsed fixed moving))
                = N.of_nat k).
  { rewrite iterations_run, Hk. apply iter_state_after.
    unfold size_t_wf in *. cbn in *. lia. }
  assert (Hcount : forall (f : Runner.event Matrix Vector P -> bool)
                          (i nz d dn : bool),
    (forall m', f (Runner.Info m') = i) ->
    (forall a b, f (Runner.Normalize a b) = nz) ->
    (forall a b, f (Runner.Init a b) = false) ->
    (forall a b, f (Runner.Default_sigma2 a b) = d) ->
    (forall a b x y, f (Runner.Compare a b x y) = false) ->
    (forall p, f (Runner.Modify_probabilities p) = false) ->
    (forall a b p x, f (Runner.Compute a b p x) = false) ->
    (forall a b, f (Runner.Denormalize a b) = dn) ->
    (forall a b x y, f (Runner.Direct_compare a b x y) = false) ->
    Runner.count f (Runner.events (Runner.run r elapsed fixed moving)) =
    (3 * Nat.b2n i + Nat.b2n nz + Nat.b2n (d && PrimFloat.eqb sigma2 0) +
     k * Nat.b2n i + Nat.b2n dn)%nat).
  { intros f i nz d dn Hi Hnz Ht Hd Hc Hm Hq Hdn Hdc.
    rewrite (count_after_loop f r elapsed fixed moving Hdn Hdc), Hk,
      (count_turns f r fixed moving Hi Hc Hm Hq),
      (count_before_loop f r fixed moving Hi Hnz Ht Hd).
    cbn. destruct i, nz, d, dn, (sigma2 =? 0); cbn; lia. }
  rewrite Hit.
  repeat match goal with |- _ /\ _ => split end.
  - exact Hle.
  - erewrite Hcount by (intros; cbn; reflexivity). cbn. lia.
  - erewrite Hcount by (intros; cbn; reflexivity). cbn. lia.
  - erewrite Hcount by (intros; cbn; reflexivity). cbn. lia.
  - now rewrite count_direct_compare_run.
  - erewrite Hcount by (intros; cbn; reflexivity).
    destruct (sigma2 =? 0); cbn; lia.
  - intros f p x w Hin. now apply compare_In_run in Hin.
  - intros f m p x Hin. now apply compute_In_run in Hin.
Qed.

End Cap.

(** The default cap of 150 lowered to 3: three iterations, not twelve. *)
Lemma lower_cap_truncates_witness :
  size_t_wf (Runner.m_max_iterations Dense.runner) /\
  (3 <= Runner.m_max_iterations Dense.runner)%N /\
  Result.iterations
    (Runner.returned
       (Runner.run (Runner.set_max_iterations Dense.runner 3%N) 0%Z Dense.square
                   Dense.shifted)) =
  N.min 3%N
    (Result.iterations
       (Runner.returned (Runner.run Dense.runner 0%Z Dense.square Dense.shifted))).
Proof.
  assert (H : size_t_wf (Runner.m_max_iterations Dense.runner))
    by (vm_compute; reflexivity).
  assert (H3 : (3 <= Runner.m_max_iterations Dense.runner)%N)
    by (vm_compute; discriminate).
  split; [exact H|]. split; [exact H3|].
  exact (proj1 (lower_cap_truncates Dense.runner 0%Z Dense.square
                  Dense.shifted H H3)).
Defined.

(** ** Configurations are not checked *)

Section Unchecked.
Context {Matrix Vector T P : Type}.
Context {E : Eigen Matrix Vector} {L : cpd.Library Matrix Vector}.
Context {Tr : Transform Matrix Vector T P}.
Implicit Type r : Runner Matrix Vector T.
Implicit Type s : Runner.loop_state Matrix Vector T P.
Implicit Types fixed moving : Matrix.
Local Open Scope float_scope.





End Unchecked.


